(** * Mercado gateway: job record, cancel endpoint and pipeline orchestrator

    A shallow embedding of [gateway/app/db.py], [gateway/app/models.py],
    [gateway/app/main.py] and [gateway/app/pipeline.py].

    - The [jobs] table is a finite map from [job_id] to rows.
    - The four remote stages are an environment: for each request payload
      they either respond with a JSON body or make the client raise.
    - [POST /cancel] requests of other clients are part of the environment
      too: they are served between two store accesses of the worker.
    - [run_pipeline] runs in a small monad that threads the store, collects
      the trace of the worker's actions and distinguishes falling off the
      end of the function, an early [return], and a raised exception. *)

From Stdlib Require Import ZArith PrimFloat Sorted.
From stdpp Require Import base option list gmap strings pretty.

Local Open Scope Z_scope.
Local Open Scope string_scope.

(** ** Values exchanged with the stage services *)

(** JSON values as [resp.json()] yields them. *)
#[warnings="-register-all"]
Inductive json : Type :=
| JNull
| JBool (b : bool)
| JInt (n : Z)
| JFloat (x : float)
| JStr (s : string)
| JList (items : list json)
| JDict (fields : list (string * json)).

(** A Python [dict] with string keys, in insertion order. *)
Definition pydict : Type := list (string * json).

(** One review item; the orchestrator never looks inside. *)
Definition review : Type := pydict.

Definition datetime : Type := Z.

(** Python exceptions: the class name and [str(e)]. *)
Inductive exception : Type :=
| Exception (cls : string) (msg : string).

Definition ValueError (msg : string) : exception := Exception "ValueError" msg.

Definition str (e : exception) : string :=
  match e with Exception _ msg => msg end.

(** ** [models.py]: [JobStatus] and the response models *)

(** [main.py] takes [JobStatus] from [models.py]; [pipeline.py] takes the
    one of [db.py], of which it uses [CANCELLED], the same string. *)
Module JobStatus.
Definition QUEUED : string := "queued".
Definition SCRAPING : string := "scraping".
Definition DONE : string := "done".
Definition FAILED : string := "failed".
Definition CANCELLED : string := "cancelled".
End JobStatus.

Module AnalyzeRequest.
Record t : Type := mk {
  product_name : string;
  monthly_active_users : option Z;
  avg_revenue_per_user : option float;
}.
End AnalyzeRequest.

Module JobResponse.
Record t : Type := mk {
  job_id : string;
  status : string;
  message : string;
}.
End JobResponse.

Module StatusResponse.
Record t : Type := mk {
  job_id : string;
  status : string;
  stage : string;
  progress_pct : Z;
  error : option string;
  report_url : option string;
}.
End StatusResponse.

(** ** [db.py]: the [jobs] table *)

Module Job.
Record t : Type := mk {
  job_id : string;
  product_name : string;
  status : string;
  stage : string;
  progress_pct : Z;
  error : option string;
  report_path : option string;
  result_json : option pydict;
  created_at : datetime;
  updated_at : datetime;
  mau : option Z;
  arpu : option float;
}.
End Job.

(** One [column = :column] pair of an [UPDATE jobs SET ...] statement, as
    [_update_job] receives it through [**kwargs]. *)
Inductive kwarg : Type :=
| K_status (v : string)
| K_stage (v : string)
| K_progress_pct (v : Z)
| K_error (v : string)
| K_report_path (v : option string)
| K_result_json (v : pydict)
| K_updated_at (v : datetime).

Definition set_column (j : Job.t) (k : kwarg) : Job.t :=
  match k with
  | K_status v =>
      Job.mk (Job.job_id j) (Job.product_name j) v (Job.stage j)
        (Job.progress_pct j) (Job.error j) (Job.report_path j)
        (Job.result_json j) (Job.created_at j) (Job.updated_at j)
        (Job.mau j) (Job.arpu j)
  | K_stage v =>
      Job.mk (Job.job_id j) (Job.product_name j) (Job.status j) v
        (Job.progress_pct j) (Job.error j) (Job.report_path j)
        (Job.result_json j) (Job.created_at j) (Job.updated_at j)
        (Job.mau j) (Job.arpu j)
  | K_progress_pct v =>
      Job.mk (Job.job_id j) (Job.product_name j) (Job.status j) (Job.stage j)
        v (Job.error j) (Job.report_path j)
        (Job.result_json j) (Job.created_at j) (Job.updated_at j)
        (Job.mau j) (Job.arpu j)
  | K_error v =>
      Job.mk (Job.job_id j) (Job.product_name j) (Job.status j) (Job.stage j)
        (Job.progress_pct j) (Some v) (Job.report_path j)
        (Job.result_json j) (Job.created_at j) (Job.updated_at j)
        (Job.mau j) (Job.arpu j)
  | K_report_path v =>
      Job.mk (Job.job_id j) (Job.product_name j) (Job.status j) (Job.stage j)
        (Job.progress_pct j) (Job.error j) v
        (Job.result_json j) (Job.created_at j) (Job.updated_at j)
        (Job.mau j) (Job.arpu j)
  | K_result_json v =>
      Job.mk (Job.job_id j) (Job.product_name j) (Job.status j) (Job.stage j)
        (Job.progress_pct j) (Job.error j) (Job.report_path j)
        (Some v) (Job.created_at j) (Job.updated_at j)
        (Job.mau j) (Job.arpu j)
  | K_updated_at v =>
      Job.mk (Job.job_id j) (Job.product_name j) (Job.status j) (Job.stage j)
        (Job.progress_pct j) (Job.error j) (Job.report_path j)
        (Job.result_json j) (Job.created_at j) v
        (Job.mau j) (Job.arpu j)
  end.

(** [UPDATE jobs SET k1 = :k1, ... WHERE job_id = :job_id]: a row that does
    not exist is not created. *)
Definition sql_update (job_id : string) (kwargs : list kwarg)
    (db : gmap string Job.t) : gmap string Job.t :=
  alter (fun j => foldl set_column j kwargs) job_id db.

(** ** [main.py]: the gateway handlers *)

(** A handler returns its response model or raises [HTTPException]. *)
Inductive http (A : Type) : Type :=
| Http200 (body : A)
| HTTPException (status_code : Z) (detail : string).
Arguments Http200 {A} body.
Arguments HTTPException {A} status_code detail.

(** [session.commit()] on a loaded row: the ORM writes the attributes that
    differ from the loaded ones, and [onupdate=datetime.utcnow] sets
    [updated_at] in that UPDATE; with no difference nothing is written. *)
Definition orm_commit (loaded changed : Job.t) (now : datetime) : Job.t :=
  if decide (Job.status changed = Job.status loaded
             ∧ Job.stage changed = Job.stage loaded
             ∧ Job.error changed = Job.error loaded)
  then loaded
  else set_column changed (K_updated_at now).

Definition cancel_job (job_id : string) (now : datetime)
    (db : gmap string Job.t) : http StatusResponse.t * gmap string Job.t :=
  match db !! job_id with
  | None => (HTTPException 404 "Job not found", db)
  | Some job =>
      if decide (Job.status job ∈ [JobStatus.DONE; JobStatus.FAILED])
      then (HTTPException 400 "Job already finished", db)
      else
        let job1 := set_column job (K_status JobStatus.CANCELLED) in
        let job2 := set_column job1 (K_stage "Analysis stopped by user.") in
        let job3 := set_column job2 (K_error "User cancellation") in
        let job' := orm_commit job job3 now in
        (Http200 (StatusResponse.mk (Job.job_id job') (Job.status job')
                    (Job.stage job') (Job.progress_pct job') (Job.error job')
                    None),
         <[job_id := job']> db)
  end.

Definition get_status (job_id : string) (db : gmap string Job.t)
    : http StatusResponse.t :=
  match db !! job_id with
  | None => HTTPException 404 "Job not found"
  | Some job =>
      let report_url :=
        if decide (Job.status job = JobStatus.DONE)
        then Some ("/report/" +:+ job_id) else None in
      Http200 (StatusResponse.mk job_id (Job.status job) (Job.stage job)
                 (Job.progress_pct job) (Job.error job) report_url)
  end.

Definition get_result_json (job_id : string) (db : gmap string Job.t)
    : http pydict :=
  match db !! job_id with
  | None => HTTPException 404 "Job not found"
  | Some job =>
      match Job.result_json job with
      | None | Some [] => HTTPException 400 "No result yet"
      | Some r => Http200 r
      end
  end.

(** [analyze] in [main.py]: insert a [QUEUED] row under a fresh [uuid4] and
    hand [run_pipeline] with its four arguments to the background tasks.
    The two column defaults [created_at] and [updated_at] are two clock
    readings.  An insert under an existing primary key fails. *)
Definition new_job (req : AnalyzeRequest.t) (job_id : string)
    (created updated : datetime) : Job.t :=
  Job.mk job_id (AnalyzeRequest.product_name req) JobStatus.QUEUED
    "Queued — waiting for worker" 0 None None None created updated
    (AnalyzeRequest.monthly_active_users req)
    (AnalyzeRequest.avg_revenue_per_user req).

Definition analyze (req : AnalyzeRequest.t) (uuid4 : string)
    (created updated : datetime) (db : gmap string Job.t)
    : http JobResponse.t * gmap string Job.t :=
  let job_id := uuid4 in
  match db !! job_id with
  | Some _ => (HTTPException 500 "Internal Server Error", db)
  | None =>
      (Http200 (JobResponse.mk job_id JobStatus.QUEUED
                  ("Job queued. Poll /status/" +:+ job_id +:+ " for updates.")),
       <[job_id := new_job req job_id created updated]> db)
  end.

(** ** [pipeline.py]: stage payloads and bodies *)

(** The [json=] payloads of the four POST requests. *)
Module ScrapePayload.
Record t : Type := mk { product_name : string; job_id : string }.
End ScrapePayload.

Module ClassifyPayload.
Record t : Type := mk {
  reviews : list review; job_id : string; product_name : string }.
End ClassifyPayload.

Module AnalyzePayload.
Record t : Type := mk {
  product_name : string;
  reviews : list review;
  job_id : string;
  mau : option Z;
  arpu : option float;
}.
End AnalyzePayload.

Module ReportPayload.
Record t : Type := mk {
  job_id : string;
  product_name : string;
  analysis_result : pydict;
  reviews : list review;
}.
End ReportPayload.

(** The response bodies, as far as the orchestrator reads them.  The
    services type them ([ScrapeResponse] and [ClassifyResponse] carry a
    list of reviews, [/analyze] and [/generate_report] return a [dict]);
    [None] stands for a key that is absent, which is what [.get] covers
    ([report_path] can also be null). *)
Module ReviewsBody.
Record t : Type := mk { reviews : option (list review) }.
(** [body.get("reviews", [])] *)
Definition get_reviews (body : t) : list review := default [] (reviews body).
End ReviewsBody.

Module ReportBody.
Record t : Type := mk { report_path : option string }.
End ReportBody.

(** What one stage call does: [resp.json()] is reached, or the client
    raises (connection error, timeout, [raise_for_status], bad JSON). *)
Inductive reply (A : Type) : Type :=
| Responded (body : A)
| Raised (e : exception).
Arguments Responded {A} body.
Arguments Raised {A} e.

(** The world around one worker run. [utcnow] and [cancel_requests] are
    indexed by the number of store accesses the worker has made so far:
    [cancel_requests k] lists the [POST /cancel/{job_id}] requests, with
    the time each is served, that the gateway handles after the worker's
    access [k-1] and before its access [k]. *)
Record env : Type := {
  utcnow : nat → datetime;
  cancel_requests : nat → list (string * datetime);
  scraper : ScrapePayload.t → reply ReviewsBody.t;
  classifier : ClassifyPayload.t → reply ReviewsBody.t;
  analysis : AnalyzePayload.t → reply pydict;
  report_generator : ReportPayload.t → reply ReportBody.t;
}.

(** The worker's observable actions. *)
Inductive event : Type :=
| EvInsert (job : Job.t)
| EvCheck (job_id : string) (cancelled : bool)
| EvUpdate (job_id : string) (kwargs : list kwarg)
| EvScrape (payload : ScrapePayload.t) (r : reply ReviewsBody.t)
| EvClassify (payload : ClassifyPayload.t) (r : reply ReviewsBody.t)
| EvAnalyze (payload : AnalyzePayload.t) (r : reply pydict)
| EvReport (payload : ReportPayload.t) (r : reply ReportBody.t).

Record world : Type := World {
  store : gmap string Job.t;
  tick : nat;
}.

(** How a block of Python statements ends. *)
Inductive ctl (A : Type) : Type :=
| Normal (a : A)
| Returned
| Raise (e : exception).
Arguments Normal {A} a.
Arguments Returned {A}.
Arguments Raise {A} e.

Record run (A : Type) : Type := Run {
  res : ctl A;
  final : world;
  trace : list event;
}.
Arguments Run {A} res final trace.
Arguments res {A} r.
Arguments final {A} r.
Arguments trace {A} r.

Definition M (A : Type) : Type := world → run A.

Definition ret {A} (a : A) : M A := fun w => Run (Normal a) w [].
Definition return_ {A} : M A := fun w => Run Returned w [].
Definition raise {A} (e : exception) : M A := fun w => Run (Raise e) w [].

(** Events of a first block come before those of what follows it. *)
Definition prepend {A} (evs : list event) (r : run A) : run A :=
  match r with Run c w t => Run c w (evs ++ t) end.

Definition bind {A B} (m : M A) (k : A → M B) : M B := fun w =>
  match m w with
  | Run (Normal a) w' t => prepend t (k a w')
  | Run Returned w' t => Run Returned w' t
  | Run (Raise e) w' t => Run (Raise e) w' t
  end.

Notation "'let*' x := m 'in' k" := (bind m (fun x => k))
  (at level 10, x name, m at level 100, k at level 200).
Notation "m ;; k" := (bind m (fun _ => k))
  (at level 100, k at level 200, right associativity).

(** [try: body except Exception as e: handler(e)] *)
Definition try_except {A} (body : M A) (handler : exception → M A) : M A :=
  fun w =>
    match body w with
    | Run (Raise e) w' t => prepend t (handler e w')
    | r => r
    end.

(** The gateway serves the pending cancel requests, one after the other. *)
Definition serve_cancels (reqs : list (string * datetime))
    (db : gmap string Job.t) : gmap string Job.t :=
  foldl (fun d r => (cancel_job r.1 r.2 d).2) db reqs.

(** [SELECT status FROM jobs WHERE job_id = :job_id], then
    [result is not None and result[0] == JobStatus.CANCELLED]. *)
Definition select_cancelled (job_id : string) (db : gmap string Job.t) : bool :=
  match db !! job_id with
  | None => false
  | Some row => bool_decide (Job.status row = JobStatus.CANCELLED)
  end.

Section Worker.
Variable E : env.

(** The store as the worker finds it at its next access. *)
Definition store_at_access (w : world) : gmap string Job.t :=
  serve_cancels (cancel_requests E (tick w)) (store w).

Definition check_if_cancelled (job_id : string) : M bool := fun w =>
  let db := store_at_access w in
  let cancelled := select_cancelled job_id db in
  Run (Normal cancelled) (World db (S (tick w))) [EvCheck job_id cancelled].

(** [kwargs["updated_at"] = datetime.utcnow()], then the UPDATE.  The
    [json.dumps] of a [dict] under [result_json] is the text that the
    JSON column reads back as that [dict]; the row holds the [dict]. *)
Definition _update_job (job_id : string) (kwargs : list kwarg) : M unit :=
  fun w =>
    let kwargs := (kwargs ++ [K_updated_at (utcnow E (tick w))])%list in
    let db := sql_update job_id kwargs (store_at_access w) in
    Run (Normal tt) (World db (S (tick w))) [EvUpdate job_id kwargs].

(** The four [client.post(...)], [raise_for_status()], [resp.json()]. *)
Definition post_scrape (payload : ScrapePayload.t) : M ReviewsBody.t :=
  fun w =>
    let r := scraper E payload in
    Run (match r with Responded b => Normal b | Raised e => Raise e end)
        w [EvScrape payload r].

Definition post_classify (payload : ClassifyPayload.t) : M ReviewsBody.t :=
  fun w =>
    let r := classifier E payload in
    Run (match r with Responded b => Normal b | Raised e => Raise e end)
        w [EvClassify payload r].

Definition post_analyze (payload : AnalyzePayload.t) : M pydict :=
  fun w =>
    let r := analysis E payload in
    Run (match r with Responded b => Normal b | Raised e => Raise e end)
        w [EvAnalyze payload r].

Definition post_generate_report (payload : ReportPayload.t) : M ReportBody.t :=
  fun w =>
    let r := report_generator E payload in
    Run (match r with Responded b => Normal b | Raised e => Raise e end)
        w [EvReport payload r].

(** [len(xs)] inside an f-string. *)
Definition len_str {A} (xs : list A) : string := pretty (length xs).

Definition run_pipeline (job_id product_name : string)
    (mau : option Z) (arpu : option float) : M unit :=
  try_except
    (let* c0 := check_if_cancelled job_id in
     if c0 : bool then return_ else
     (* stage 1: scraping *)
     _update_job job_id
       [K_status "scraping";
        K_stage "Scraping reviews from Reddit, HN, G2...";
        K_progress_pct 10];;
     let* scrape_result :=
       post_scrape (ScrapePayload.mk product_name job_id) in
     let raw_reviews := ReviewsBody.get_reviews scrape_result in
     if bool_decide (raw_reviews = []) then
       raise (ValueError
                "Scraper returned 0 reviews. Check product name or sources.")
     else
     let* c1 := check_if_cancelled job_id in
     if c1 : bool then return_ else
     _update_job job_id
       [K_stage ("Scraped " +:+ len_str raw_reviews
                 +:+ " raw items. Classifying...");
        K_progress_pct 30];;
     let* c2 := check_if_cancelled job_id in
     if c2 : bool then return_ else
     (* stage 2: classification *)
     _update_job job_id
       [K_status "classifying";
        K_stage "Filtering spam, classifying quality...";
        K_progress_pct 35];;
     let* classify_result :=
       post_classify (ClassifyPayload.mk raw_reviews job_id product_name) in
     let clean_reviews := ReviewsBody.get_reviews classify_result in
     let clean_reviews :=
       if bool_decide (length clean_reviews < 5)%nat
       then take 15 raw_reviews else clean_reviews in
     let* c3 := check_if_cancelled job_id in
     if c3 : bool then return_ else
     _update_job job_id
       [K_stage (len_str clean_reviews
                 +:+ " quality reviews. Running analysis...");
        K_progress_pct 55];;
     let* c4 := check_if_cancelled job_id in
     if c4 : bool then return_ else
     (* stage 3: analysis *)
     _update_job job_id
       [K_status "analyzing";
        K_stage "Running 4 parallel AI agents...";
        K_progress_pct 60];;
     let* analysis_result :=
       post_analyze
         (AnalyzePayload.mk product_name clean_reviews job_id mau arpu) in
     let* c5 := check_if_cancelled job_id in
     if c5 : bool then return_ else
     _update_job job_id
       [K_stage "Generating PDF report..."; K_progress_pct 80];;
     (* stage 4: report generation *)
     _update_job job_id
       [K_status "generating"; K_stage "Minting PDF..."; K_progress_pct 85];;
     let* gen_result :=
       post_generate_report
         (ReportPayload.mk job_id product_name analysis_result
            clean_reviews) in
     let report_path := ReportBody.report_path gen_result in
     _update_job job_id
       [K_status "done"; K_stage "Complete"; K_progress_pct 100;
        K_report_path report_path; K_result_json analysis_result])
    (fun e =>
       _update_job job_id
         [K_status "failed"; K_stage "Failed"; K_error (str e);
          K_progress_pct 0];;
       raise e).

End Worker.


(** ** [scraper_service]: the [/scrape] endpoint *)

Module ReviewItem.
Record t : Type := mk {
  text : string;
  source : string;
  url : string;
  date : string;
  upvotes : Z;
  platform : string;
}.
End ReviewItem.

(** One dict of the list that [deduplicate_and_weight] returns.
    [cluster_id] is held as [str()] renders it in the f-string of
    [scrape]. *)
Module WeightedCluster.
Record t : Type := mk {
  cluster_id : string;
  representative_text : string;
  cluster_size : Z;
  source : string;
  recency_weight : float;
  combined_weight : float;
  sources : list string;
  upvotes : Z;
}.
End WeightedCluster.

Module ScrapeResponse.
Record t : Type := mk {
  job_id : string;
  reviews : list ReviewItem.t;
  total_count : Z;
}.
End ScrapeResponse.

(** [results[i] if isinstance(results[i], list) else []], for a result of
    [asyncio.gather(..., return_exceptions=True)]. *)
Definition list_or_empty {A} (result : reply (list A)) : list A :=
  match result with Responded l => l | Raised _ => [] end.

(** One turn of the loop over [all_reviews], on [seen_urls] and
    [unique_reviews]. *)
Definition unique_step (acc : gset string * list ReviewItem.t)
    (r : ReviewItem.t) : gset string * list ReviewItem.t :=
  let (seen_urls, unique_reviews) := acc in
  if decide (ReviewItem.url r ∈ seen_urls) then acc
  else ({[ReviewItem.url r]} ∪ seen_urls, (unique_reviews ++ [r])%list).

(** Step 1 of [scrape]: deduplicate by URL, exact match. *)
Definition unique_by_url (all_reviews : list ReviewItem.t)
    : list ReviewItem.t :=
  (foldl unique_step (∅, []) all_reviews).2.

Section Scraper.
(** The embedding and clustering of [deduplicate_and_weight], for a list
    that is not empty. *)
Variable cluster_by_meaning : list ReviewItem.t → list WeightedCluster.t.

(** [dedup.py]: [if not reviews: return []], else embed and cluster. *)
Definition deduplicate_and_weight (reviews : list ReviewItem.t)
    : list WeightedCluster.t :=
  match reviews with
  | [] => []
  | _ => cluster_by_meaning reviews
  end.

(** [scrape], from the four results that [asyncio.gather] hands back. *)
Definition scrape (req : ScrapePayload.t)
    (reddit hn web exa : reply (list ReviewItem.t)) : ScrapeResponse.t :=
  let all_reviews :=
    (list_or_empty reddit ++ list_or_empty hn ++ list_or_empty web
     ++ list_or_empty exa)%list in
  let unique_reviews := unique_by_url all_reviews in
  let weighted_clusters := deduplicate_and_weight unique_reviews in
  let cluster_reviews :=
    (fun c =>
       ReviewItem.mk (WeightedCluster.representative_text c)
         (WeightedCluster.source c)
         ("cluster_" +:+ WeightedCluster.cluster_id c)
         "recent" (WeightedCluster.upvotes c) (WeightedCluster.source c))
    <$> weighted_clusters in
  ScrapeResponse.mk (ScrapePayload.job_id req) cluster_reviews
    (Z.of_nat (length cluster_reviews)).

End Scraper.

(** ** [analysis_service]: the [/analyze] endpoint *)

(** [results[i] if not isinstance(results[i], Exception) else {}] *)
Definition or_empty_dict (result : reply json) : json :=
  match result with Responded v => v | Raised _ => JDict [] end.

Definition type_name (v : json) : string :=
  match v with
  | JNull => "NoneType"
  | JBool _ => "bool"
  | JInt _ => "int"
  | JFloat _ => "float"
  | JStr _ => "str"
  | JList _ => "list"
  | JDict _ => "dict"
  end.

(** The value under [key]; of two entries with one key the later one
    counts, as in [json.loads]. *)
Fixpoint dict_get (key : string) (d : pydict) : option json :=
  match d with
  | [] => None
  | (k, v) :: d' =>
      match dict_get key d' with
      | Some v' => Some v'
      | None => if decide (k = key) then Some v else None
      end
  end.

(** [v.get(key, default)]: only a [dict] has [get]. *)
Definition py_get (v : json) (key : string) (dflt : json) : reply json :=
  match v with
  | JDict d => Responded (default dflt (dict_get key d))
  | _ =>
      Raised (Exception "AttributeError"
                ("'" +:+ type_name v +:+ "' object has no attribute 'get'"))
  end.

(** [analyze] of [analysis_service/app/main.py], from the four results
    that [asyncio.gather(..., return_exceptions=True)] hands back for the
    sentiment, priority, competitor and risk agents. *)
Module AnalysisService.
Definition analyze (sentiment priority competitor risk : reply json)
    : reply pydict :=
  let sentiment_result := or_empty_dict sentiment in
  let priority_result := or_empty_dict priority in
  let competitor_result := or_empty_dict competitor in
  let risk_result := or_empty_dict risk in
  match py_get priority_result "priority_matrix" (JList []) with
  | Raised e => Raised e
  | Responded priority_matrix =>
      match py_get priority_result "technical_gaps" (JList []) with
      | Raised e => Raised e
      | Responded technical_gaps =>
          Responded
            [("sentiment", sentiment_result);
             ("priority_matrix", priority_matrix);
             ("technical_gaps", technical_gaps);
             ("competitor", competitor_result);
             ("risk", risk_result)]
      end
  end.
End AnalysisService.

(** ** [classifier_service]: [aggregate_sentiment] *)

Module SentimentSummary.
Record t : Type := mk {
  overall_label : string;
  weighted_score : float;
  positive_pct : float;
  neutral_pct : float;
  negative_pct : float;
  total : Z;
}.
End SentimentSummary.

(** The function returns its dict or stops on [counts[label] += 1] with
    [KeyError(label)]. *)
Inductive aggregated : Type :=
| Summary (s : SentimentSummary.t)
| KeyError (label : string).

(** [VAL_MAP.get(label, 0.0)] *)
Definition val_map_get (label : string) : float :=
  if decide (label = "positive") then 1%float
  else if decide (label = "neutral") then 0%float
  else if decide (label = "negative") then (-1)%float
  else 0%float.

(** The loop variables: the two sums and [counts]. *)
Record tally : Type := Tally {
  weighted_sum : float;
  total_weight : float;
  n_positive : nat;
  n_neutral : nat;
  n_negative : nat;
}.

(** One turn of the loop; [inr label] is the [KeyError]. *)
Definition tally_step (t : tally) (item : (string * float) * float)
    : tally + string :=
  let '((label, conf), weight) := item in
  let val := val_map_get label in
  let contribution := (val * conf * weight)%float in
  let weighted_sum := (weighted_sum t + contribution)%float in
  let total_weight := (total_weight t + weight)%float in
  if decide (label = "positive") then
    inl (Tally weighted_sum total_weight (S (n_positive t)) (n_neutral t)
           (n_negative t))
  else if decide (label = "neutral") then
    inl (Tally weighted_sum total_weight (n_positive t) (S (n_neutral t))
           (n_negative t))
  else if decide (label = "negative") then
    inl (Tally weighted_sum total_weight (n_positive t) (n_neutral t)
           (S (n_negative t)))
  else inr label.

Fixpoint tally_loop (t : tally) (items : list ((string * float) * float))
    : tally + string :=
  match items with
  | [] => inl t
  | item :: rest =>
      match tally_step t item with
      | inl t' => tally_loop t' rest
      | inr label => inr label
      end
  end.

(** [max(counts, key=counts.get)]: the keys are tried in the order
    positive, neutral, negative, and a later key wins only with a strictly
    higher count. *)
Definition max_count_label (t : tally) : string :=
  let best := ("positive", n_positive t) in
  let best :=
    if decide (best.2 < n_neutral t)%nat then ("neutral", n_neutral t)
    else best in
  let best :=
    if decide (best.2 < n_negative t)%nat then ("negative", n_negative t)
    else best in
  best.1.

Section Sentiment.
(** [round(x, ndigits)] and the true division [a / b] of two [int]s. *)
Variable round_ndigits : float → Z → float.
Variable int_truediv : Z → Z → float.

Definition aggregate_sentiment (scores_list : list (string * float))
    (weights : list float) : aggregated :=
  match scores_list with
  | [] => Summary (SentimentSummary.mk "neutral" 5%float 0%float 0%float
                     0%float 0)
  | _ =>
      match tally_loop (Tally 0%float 0%float 0 0 0)
              (zip scores_list weights) with
      | inr label => KeyError label
      | inl t =>
          let raw_score :=
            if PrimFloat.eqb (total_weight t) 0%float then 0%float
            else (weighted_sum t / total_weight t)%float in
          let final_score :=
            round_ndigits (((raw_score + 1) / 2) * 10)%float 2 in
          let total := Z.of_nat (length scores_list) in
          let pct (n : nat) :=
            round_ndigits (int_truediv (Z.of_nat n) total * 100)%float 1 in
          Summary (SentimentSummary.mk (max_count_label t) final_score
                     (pct (n_positive t)) (pct (n_neutral t))
                     (pct (n_negative t)) total)
      end
  end.

End Sentiment.

(** The labels [counts] has a key for. *)
Definition known_label (label : string) : Prop :=
  label ∈ ["positive"; "neutral"; "negative"].

(** How many of the first [n] scores carry [label]. *)
Definition count_label (label : string) (n : nat)
    (scores_list : list (string * float)) : nat :=
  length (filter (fun s => s.1 = label) (take n scores_list)).

(** ** Reading a trace *)

(** The spec's terminal states. *)
Definition terminal (status : string) : Prop :=
  status ∈ [JobStatus.DONE; JobStatus.FAILED; JobStatus.CANCELLED].

Definition kwarg_status (k : kwarg) : list string :=
  match k with K_status v => [v] | _ => [] end.

Definition kwarg_progress (k : kwarg) : list Z :=
  match k with K_progress_pct v => [v] | _ => [] end.

(** The [status] values written to the row of [job_id], oldest first. *)
Definition statuses_written (job_id : string) (t : list event) : list string :=
  flat_map (fun ev =>
    match ev with
    | EvInsert job =>
        if String.eqb (Job.job_id job) job_id then [Job.status job] else []
    | EvUpdate j kwargs =>
        if String.eqb j job_id then flat_map kwarg_status kwargs else []
    | _ => []
    end) t.

(** The [progress_pct] values written to the row of [job_id]. *)
Definition progress_written (job_id : string) (t : list event) : list Z :=
  flat_map (fun ev =>
    match ev with
    | EvInsert job =>
        if String.eqb (Job.job_id job) job_id
        then [Job.progress_pct job] else []
    | EvUpdate j kwargs =>
        if String.eqb j job_id then flat_map kwarg_progress kwargs else []
    | _ => []
    end) t.

(** An UPDATE that sets [status] to [s]. *)
Definition sets_status (s : string) (ev : event) : bool :=
  match ev with
  | EvUpdate _ kwargs => bool_decide (s ∈ flat_map kwarg_status kwargs)
  | _ => false
  end.


(** Calls to the classify, analyze and render stages. *)
Definition downstream_call (ev : event) : bool :=
  match ev with
  | EvClassify _ _ | EvAnalyze _ _ | EvReport _ _ => true
  | _ => false
  end.

(** The exception a stage call raised, if the event is one. *)
Definition stage_raised (ev : event) : option exception :=
  match ev with
  | EvScrape _ (Raised e) | EvClassify _ (Raised e)
  | EvAnalyze _ (Raised e) | EvReport _ (Raised e) => Some e
  | _ => None
  end.

(** What the worker did after its scrape call. *)
Fixpoint after_scrape (t : list event) : list event :=
  match t with
  | [] => []
  | EvScrape _ _ :: t' => t'
  | _ :: t' => after_scrape t'
  end.

(** The row of [job_id] exists and satisfies [P]. *)
Definition row_sat (P : Job.t → Prop) (job_id : string)
    (db : gmap string Job.t) : Prop :=
  ∃ j, db !! job_id = Some j ∧ P j.

(** The columns a cancellation leaves alone. *)
Definition cancel_frame (j j' : Job.t) : Prop :=
  Job.job_id j' = Job.job_id j
  ∧ Job.product_name j' = Job.product_name j
  ∧ Job.progress_pct j' = Job.progress_pct j
  ∧ Job.report_path j' = Job.report_path j
  ∧ Job.result_json j' = Job.result_json j
  ∧ Job.created_at j' = Job.created_at j
  ∧ Job.mau j' = Job.mau j
  ∧ Job.arpu j' = Job.arpu j.

(** ** The order of the stage calls *)

Inductive stage : Type := Scrape | Classify | Analyze | Render.

(** The stage an event calls, and whether the call returned a body. *)
Definition call_of (ev : event) : option (stage * bool) :=
  match ev with
  | EvScrape _ r =>
      Some (Scrape, match r with Responded _ => true | Raised _ => false end)
  | EvClassify _ r =>
      Some (Classify, match r with Responded _ => true | Raised _ => false end)
  | EvAnalyze _ r =>
      Some (Analyze, match r with Responded _ => true | Raised _ => false end)
  | EvReport _ r =>
      Some (Render, match r with Responded _ => true | Raised _ => false end)
  | _ => None
  end.

Definition call_log (t : list event) : list (stage * bool) := omap call_of t.

(** The store accesses of [run_pipeline], counted from its first
    checkpoint, that write [status] without reading it first: the UPDATEs
    to scraping, classifying, analyzing, the two UPDATEs after the last
    checkpoint, and the final UPDATE to done. *)
Definition blind_accesses : list nat := [1; 5; 9; 11; 12; 13]%nat.

(** ** Example jobs and environments *)

Definition demo_request : AnalyzeRequest.t :=
  AnalyzeRequest.mk "acme" (Some 1000) None.

(** Job [j1] as [POST /analyze] creates it, and the store holding it. *)
Definition demo_job : Job.t := new_job demo_request "j1" 1 2.

Definition demo_db : gmap string Job.t :=
  (analyze demo_request "j1" 1 2 ∅).2.

Definition failed_kwargs : list kwarg :=
  [K_status "failed"; K_stage "Failed"; K_error "boom"; K_progress_pct 0;
   K_updated_at 5].

(** [j1] after a run that failed. *)
Definition failed_db : gmap string Job.t := sql_update "j1" failed_kwargs demo_db.

Definition demo_reviews : list review :=
  [[("text", JStr "checkout is slow")]; [("text", JStr "great support")]].

Definition demo_analysis : pydict := [("sentiment", JInt 7)].

Definition clock (k : nat) : datetime := 100 + Z.of_nat k.

(** One cancel request for [j1], served just before the worker's store
    access number [k0]. *)
Definition cancel_before (k0 : nat) (k : nat) : list (string * datetime) :=
  if Nat.eqb k k0 then [("j1", 50)] else [].

(** Two reviews scraped, none accepted by the classifier, analysis and
    report fine, nobody cancels. *)
Definition demo_env : env :=
  Build_env clock (fun _ => [])
    (fun _ => Responded (ReviewsBody.mk (Some demo_reviews)))
    (fun _ => Responded (ReviewsBody.mk (Some [])))
    (fun _ => Responded demo_analysis)
    (fun _ => Responded (ReportBody.mk (Some "reports/report_j1.pdf"))).

Definition empty_scrape_env : env :=
  Build_env clock (fun _ => [])
    (fun _ => Responded (ReviewsBody.mk (Some [])))
    (classifier demo_env) (analysis demo_env) (report_generator demo_env).

Definition classify_down_env : env :=
  Build_env clock (fun _ => []) (scraper demo_env)
    (fun _ => Raised (Exception "ConnectError" "connection refused"))
    (analysis demo_env) (report_generator demo_env).

Definition render_down_env : env :=
  Build_env clock (fun _ => []) (scraper demo_env) (classifier demo_env)
    (analysis demo_env)
    (fun _ => Raised (Exception "ReadTimeout" "timed out")).

(** The user cancels [j1] while the scrape call is in flight: the request
    is served before the worker's third store access, the checkpoint that
    follows the scrape call. *)
Definition cancel_during_scrape_env : env :=
  Build_env clock (cancel_before 2) (scraper demo_env) (classifier demo_env)
    (analysis demo_env) (report_generator demo_env).

(** The user cancels [j1] while the classify call is in flight. *)
Definition cancel_during_classify_env : env :=
  Build_env clock (cancel_before 6) (scraper demo_env) (classifier demo_env)
    (analysis demo_env) (report_generator demo_env).

(** The worker's run for [j1] in environment [E]. *)
Definition demo_run (E : env) : run unit :=
  run_pipeline E "j1" "acme" (Some 1000) None (World demo_db 0).

(** [j1] after an accepted cancel. *)
Definition cancelled_db : gmap string Job.t := (cancel_job "j1" 7 demo_db).2.

(** The user cancels [j1] while the render call is in flight: the request
    is served before the worker's last store access, the UPDATE to done. *)
Definition cancel_during_render_env : env :=
  Build_env clock (cancel_before 13) (scraper demo_env) (classifier demo_env)
    (analysis demo_env) (report_generator demo_env).

(** ** Three claims as the spec words them *)

(** C1: every terminal job makes the cancel endpoint raise and keep the
    store. *)
Definition cancel_rejects_every_terminal : Prop :=
  ∀ (db : gmap string Job.t) job_id now job,
    db !! job_id = Some job →
    terminal (Job.status job) →
    ∃ code detail, cancel_job job_id now db = (HTTPException code detail, db).

(** C8: the recorded message is all lower case. *)
Definition cancel_records_lowercase_message : Prop :=
  ∀ (db : gmap string Job.t) job_id now job,
    db !! job_id = Some job →
    ¬ terminal (Job.status job) →
    Job.error <$> (cancel_job job_id now db).2 !! job_id
    = Some (Some "user cancellation").

(** C3: whenever the scrape is non-empty and the classifier accepts fewer
    than 5 items, analyze is called with the first 15 raw items. *)
Definition low_yield_always_reaches_analyze : Prop :=
  ∀ E job_id product_name mau arpu w p1 raw p2 clean,
    let r := run_pipeline E job_id product_name mau arpu w in
    EvScrape p1 (Responded raw) ∈ trace r →
    ReviewsBody.get_reviews raw ≠ [] →
    EvClassify p2 (Responded clean) ∈ trace r →
    (length (ReviewsBody.get_reviews clean) < 5)%nat →
    ∃ reply,
      EvAnalyze
        (AnalyzePayload.mk product_name
           (take 15 (ReviewsBody.get_reviews raw)) job_id mau arpu) reply
      ∈ trace r.

(** * Properties *)

(** ** The store *)

Lemma lookup_sql_update job_id kwargs (db : gmap string Job.t) :
  sql_update job_id kwargs db !! job_id
  = (fun j => foldl set_column j kwargs) <$> db !! job_id.
Proof. unfold sql_update. by rewrite lookup_alter_eq. Qed.

Lemma row_sat_update (P Q : Job.t → Prop) job_id kwargs db :
  (∀ j, P j → Q (foldl set_column j kwargs)) →
  row_sat P job_id db → row_sat Q job_id (sql_update job_id kwargs db).
Proof.
  intros HPQ (j & Hj & HP). exists (foldl set_column j kwargs).
  rewrite lookup_sql_update, Hj. auto.
Qed.

Lemma row_sat_update_inv (P : Job.t → Prop) job_id kwargs db :
  (∀ j, P j → P (foldl set_column j kwargs)) →
  row_sat P job_id db → row_sat P job_id (sql_update job_id kwargs db).
Proof. apply row_sat_update. Qed.

Lemma row_sat_and (P Q : Job.t → Prop) job_id db :
  row_sat P job_id db → row_sat Q job_id db →
  row_sat (fun j => P j ∧ Q j) job_id db.
Proof.
  intros (j & Hj & HP) (j' & Hj' & HQ). exists j.
  rewrite Hj in Hj'. injection Hj' as <-. auto.
Qed.

Lemma cancel_frame_refl j : cancel_frame j j.
Proof. by repeat split. Qed.

Lemma cancel_frame_trans j1 j2 j3 :
  cancel_frame j1 j2 → cancel_frame j2 j3 → cancel_frame j1 j3.
Proof.
  unfold cancel_frame. intros H12 H23.
  destruct_and!. repeat split; congruence.
Qed.

(** ** [cancel_job] *)

(** Membership of one literal in a list of literals, refuted entry by
    entry. *)
Ltac refute_elem_of H :=
  cbn in H;
  repeat (apply elem_of_cons in H as [H|H]; [discriminate H|]);
  by apply elem_of_nil in H.

Lemma orm_commit_frame loaded changed now :
  cancel_frame loaded changed →
  cancel_frame loaded (orm_commit loaded changed now).
Proof.
  intros Hf. unfold orm_commit. case_decide; [apply cancel_frame_refl|].
  destruct changed; exact Hf.
Qed.

Lemma orm_commit_written loaded changed now :
  Job.status (orm_commit loaded changed now) = Job.status changed
  ∧ Job.stage (orm_commit loaded changed now) = Job.stage changed
  ∧ Job.error (orm_commit loaded changed now) = Job.error changed.
Proof.
  unfold orm_commit. case_decide as Heq.
  - destruct Heq as (-> & -> & ->). done.
  - by destruct changed.
Qed.

(** What an accepted cancellation leaves in the store. *)
Lemma cancel_job_accepted job_id now db job :
  db !! job_id = Some job →
  Job.status job ∉ [JobStatus.DONE; JobStatus.FAILED] →
  ∃ job',
    cancel_job job_id now db
    = (Http200 (StatusResponse.mk (Job.job_id job) JobStatus.CANCELLED
                  "Analysis stopped by user." (Job.progress_pct job)
                  (Some "User cancellation") None),
       <[job_id := job']> db)
    ∧ Job.status job' = JobStatus.CANCELLED
    ∧ Job.stage job' = "Analysis stopped by user."
    ∧ Job.error job' = Some "User cancellation"
    ∧ cancel_frame job job'.
Proof.
  intros Hrow Hst. unfold cancel_job. rewrite Hrow.
  destruct (decide _) as [Hin|_]; [done|].
  set (job3 := set_column _ (K_error _)).
  assert (Hf : cancel_frame job job3) by (destruct job; by repeat split).
  pose proof (orm_commit_written job job3 now) as (Hs & Hg & He).
  pose proof (orm_commit_frame job job3 now Hf) as Hf'.
  exists (orm_commit job job3 now). split; [|by rewrite Hs, Hg, He].
  rewrite Hs, Hg, He. destruct Hf' as (-> & _ & -> & _). done.
Qed.

Lemma cancel_job_rejected job_id now db job :
  db !! job_id = Some job →
  Job.status job ∈ [JobStatus.DONE; JobStatus.FAILED] →
  cancel_job job_id now db = (HTTPException 400 "Job already finished", db).
Proof.
  intros Hrow Hst. unfold cancel_job. rewrite Hrow.
  by destruct (decide _).
Qed.

Lemma cancel_job_lookup_ne job_id other now db :
  job_id ≠ other → (cancel_job job_id now db).2 !! other = db !! other.
Proof.
  intros Hne. unfold cancel_job.
  destruct (db !! job_id) as [job|]; [|done].
  destruct (decide _); [done|]. cbn. by rewrite lookup_insert_ne.
Qed.

(** Whatever the request, the row survives and keeps its other columns. *)
Lemma cancel_job_row job_id other now db j :
  db !! job_id = Some j →
  ∃ j', (cancel_job other now db).2 !! job_id = Some j' ∧ cancel_frame j j'.
Proof.
  intros Hrow. destruct (decide (other = job_id)) as [->|Hne].
  - destruct (decide (Job.status j ∈ [JobStatus.DONE; JobStatus.FAILED])).
    + rewrite (cancel_job_rejected _ _ _ j) by done.
      exists j. split; [done|apply cancel_frame_refl].
    + destruct (cancel_job_accepted job_id now db j) as (j' & -> & H); [done..|].
      exists j'. cbn. rewrite lookup_insert_eq. by destruct_and!.
  - exists j. rewrite cancel_job_lookup_ne by done.
    split; [done|apply cancel_frame_refl].
Qed.

Lemma serve_cancels_row reqs job_id db j :
  db !! job_id = Some j →
  ∃ j', serve_cancels reqs db !! job_id = Some j' ∧ cancel_frame j j'.
Proof.
  revert db j. induction reqs as [|[other now] reqs IH]; intros db j Hrow.
  - exists j. split; [done|apply cancel_frame_refl].
  - destruct (cancel_job_row job_id other now db j Hrow) as (j1 & H1 & Hf1).
    destruct (IH _ _ H1) as (j2 & H2 & Hf2).
    exists j2. split; [exact H2|by eapply cancel_frame_trans].
Qed.

Lemma serve_cancels_absent reqs job_id db :
  job_id ∉ reqs.*1 → serve_cancels reqs db !! job_id = db !! job_id.
Proof.
  revert db. induction reqs as [|[other now] reqs IH]; intros db Hnot; [done|].
  cbn in Hnot. apply not_elem_of_cons in Hnot as [Hne Hnot].
  cbn. unfold serve_cancels in IH. rewrite IH by done.
  by apply cancel_job_lookup_ne.
Qed.

(** ** The cancel endpoint: C1, C8, C10 *)

(** C1, counterexample: job [j1] is created and cancelled; its status is
    now [cancelled]. A second [POST /cancel/j1] is answered with the status
    view, not with an error, so not every terminal job is rejected. *)
Lemma cancel_twice_not_rejected :
  let db1 := (cancel_job "j1" 7 demo_db).2 in
  Job.status <$> db1 !! "j1" = Some JobStatus.CANCELLED
  ∧ (cancel_job "j1" 9 db1).1
    = Http200 (StatusResponse.mk "j1" "cancelled" "Analysis stopped by user."
                 0 (Some "User cancellation") None)
  ∧ ¬ cancel_rejects_every_terminal.
Proof.
  cbv zeta. split; [reflexivity|]. split; [reflexivity|].
  intros Hclaim.
  destruct (cancel_job_accepted "j1" 7 demo_db demo_job) as (j1 & Hc & Hs & _).
  { reflexivity. }
  { intros Hin. refute_elem_of Hin. }
  destruct (Hclaim (cancel_job "j1" 7 demo_db).2 "j1" 9 j1)
    as (code & detail & Hrej).
  - rewrite Hc. cbn. by rewrite lookup_insert_eq.
  - unfold terminal. rewrite Hs, !elem_of_cons. auto.
  - apply (f_equal fst) in Hrej. vm_compute in Hrej. discriminate Hrej.
Qed.

(** C1, amended: a job whose status is DONE or FAILED is rejected with
    HTTP 400 and the store is left as it was; a job whose status is
    CANCELLED is not rejected: the call answers 200 with status CANCELLED
    and the row stays CANCELLED. *)
Theorem cancel_job_on_terminal (db : gmap string Job.t) job_id now job :
  db !! job_id = Some job →
  terminal (Job.status job) →
  (Job.status job ≠ JobStatus.CANCELLED →
     cancel_job job_id now db
     = (HTTPException 400 "Job already finished", db))
  ∧ (Job.status job = JobStatus.CANCELLED →
       ∃ resp db',
         cancel_job job_id now db = (Http200 resp, db')
         ∧ StatusResponse.status resp = JobStatus.CANCELLED
         ∧ Job.status <$> db' !! job_id = Some JobStatus.CANCELLED).
Proof.
  intros Hrow Hterm. split.
  - intros Hnc. apply (cancel_job_rejected _ _ _ job); [done|].
    unfold terminal in Hterm. rewrite !elem_of_cons, elem_of_nil in Hterm.
    rewrite !elem_of_cons. tauto.
  - intros Hc.
    destruct (cancel_job_accepted job_id now db job) as (j' & -> & Hs & _);
      [done| |].
    + rewrite Hc. intros Hin. refute_elem_of Hin.
    + eexists _, _. split; [reflexivity|]. split; [done|].
      by rewrite lookup_insert_eq, <- Hs.
Qed.

Lemma cancel_job_on_terminal_witness :
  cancel_job "j1" 9 failed_db
  = (HTTPException 400 "Job already finished", failed_db).
Proof.
  refine (proj1 (cancel_job_on_terminal failed_db "j1" 9
                   (foldl set_column demo_job failed_kwargs) _ _) _).
  - reflexivity.
  - unfold terminal. cbn. rewrite !elem_of_cons. auto.
  - cbn. discriminate.
Defined.

(** C8, counterexample: cancelling the queued job [j1] stores
    [User cancellation], with a capital U. *)
Lemma cancel_message_is_capitalised :
  Job.error <$> (cancel_job "j1" 7 demo_db).2 !! "j1"
  = Some (Some "User cancellation")
  ∧ ¬ cancel_records_lowercase_message.
Proof.
  split; [reflexivity|]. intros Hclaim.
  specialize (Hclaim demo_db "j1" 7 demo_job eq_refl).
  assert (Hnt : ¬ terminal (Job.status demo_job)).
  { intros Hin. unfold terminal in Hin. refute_elem_of Hin. }
  specialize (Hclaim Hnt). vm_compute in Hclaim. discriminate Hclaim.
Qed.

(** C8, amended: cancelling a non-terminal job moves it to CANCELLED and
    records the fixed message [User cancellation] (capital U) in [error]. *)
Theorem cancel_job_records_message (db : gmap string Job.t) job_id now job :
  db !! job_id = Some job →
  ¬ terminal (Job.status job) →
  ∃ job',
    (cancel_job job_id now db).2 !! job_id = Some job'
    ∧ Job.status job' = JobStatus.CANCELLED
    ∧ Job.error job' = Some "User cancellation".
Proof.
  intros Hrow Hnt.
  destruct (cancel_job_accepted job_id now db job) as (j' & -> & Hs & _ & He & _);
    [done| |].
  - intros Hin. apply Hnt. unfold terminal.
    rewrite !elem_of_cons in Hin. rewrite !elem_of_cons. tauto.
  - exists j'. cbn. by rewrite lookup_insert_eq.
Qed.

Lemma cancel_job_records_message_witness :
  ∃ job',
    (cancel_job "j1" 7 demo_db).2 !! "j1" = Some job'
    ∧ Job.status job' = JobStatus.CANCELLED
    ∧ Job.error job' = Some "User cancellation".
Proof.
  apply (cancel_job_records_message demo_db "j1" 7 demo_job).
  - reflexivity.
  - intros Hin. unfold terminal in Hin. refute_elem_of Hin.
Defined.

(** C10: an accepted [POST /cancel/{job_id}] leaves [job_id],
    [product_name], [progress_pct], [report_path], [result_json],
    [created_at], [mau] and [arpu] of the row as they were (only [status],
    [stage], [error] and [updated_at] can differ), and touches no other
    row. *)
Theorem cancel_job_frame (db db' : gmap string Job.t) job_id now job resp :
  db !! job_id = Some job →
  cancel_job job_id now db = (Http200 resp, db') →
  ∃ job',
    db' !! job_id = Some job'
    ∧ Job.job_id job' = Job.job_id job
    ∧ Job.product_name job' = Job.product_name job
    ∧ Job.progress_pct job' = Job.progress_pct job
    ∧ Job.report_path job' = Job.report_path job
    ∧ Job.result_json job' = Job.result_json job
    ∧ Job.created_at job' = Job.created_at job
    ∧ Job.mau job' = Job.mau job
    ∧ Job.arpu job' = Job.arpu job
    ∧ ∀ other, other ≠ job_id → db' !! other = db !! other.
Proof.
  intros Hrow Hcancel.
  destruct (cancel_job_row job_id job_id now db job Hrow) as (j' & Hj' & Hf).
  rewrite Hcancel in Hj'. cbn in Hj'.
  exists j'. split; [done|]. unfold cancel_frame in Hf. destruct_and!.
  repeat (split; [done|]).
  intros other Hne. rewrite <- (cancel_job_lookup_ne job_id other now db) by done.
  by rewrite Hcancel.
Qed.

Lemma cancel_job_frame_witness :
  ∃ job',
    (cancel_job "j1" 7 demo_db).2 !! "j1" = Some job'
    ∧ Job.job_id job' = "j1"
    ∧ Job.product_name job' = "acme"
    ∧ Job.progress_pct job' = 0
    ∧ Job.report_path job' = None
    ∧ Job.result_json job' = None
    ∧ Job.created_at job' = 1
    ∧ Job.mau job' = Some 1000
    ∧ Job.arpu job' = None
    ∧ ∀ other, other ≠ "j1" →
        (cancel_job "j1" 7 demo_db).2 !! other = demo_db !! other.
Proof.
  eapply (cancel_job_frame demo_db _ "j1" 7 demo_job).
  - reflexivity.
  - vm_compute. reflexivity.
Defined.

(** ** The worker's view of the store *)

Lemma row_sat_access (P : Job.t → Prop) E job_id db n :
  (∀ j j', cancel_frame j j' → P j → P j') →
  row_sat P job_id db →
  row_sat P job_id (store_at_access E (World db n)).
Proof.
  intros Hstable (j & Hj & HP).
  destruct (serve_cancels_row (cancel_requests E n) job_id db j Hj)
    as (j' & Hj' & Hf).
  exists j'. split; [exact Hj'|]. by eapply Hstable.
Qed.

Lemma row_sat_access_quiet (P : Job.t → Prop) E job_id db n :
  job_id ∉ (cancel_requests E n).*1 →
  row_sat P job_id db →
  row_sat P job_id (store_at_access E (World db n)).
Proof.
  intros Hquiet (j & Hj & HP). exists j. split; [|done].
  unfold store_at_access. cbn. by rewrite serve_cancels_absent.
Qed.

Lemma select_cancelled_true job_id db :
  select_cancelled job_id db = true →
  row_sat (fun j => Job.status j = JobStatus.CANCELLED) job_id db.
Proof.
  unfold select_cancelled. intros Hsel.
  destruct (db !! job_id) as [row|] eqn:Hrow; [|discriminate Hsel].
  exists row. split; [done|]. by apply bool_decide_eq_true in Hsel.
Qed.

Lemma select_cancelled_false job_id db :
  row_sat (fun j => Job.status j ≠ JobStatus.CANCELLED) job_id db →
  select_cancelled job_id db = false.
Proof.
  intros (j & Hj & Hne). unfold select_cancelled. rewrite Hj.
  by apply bool_decide_eq_false.
Qed.

(** ** Symbolic execution of [run_pipeline] *)

(** Unfold the monad down to the next decision. *)
Ltac run_whd H :=
  cbv beta iota zeta delta
    [run_pipeline try_except bind prepend check_if_cancelled _update_job
     post_scrape post_classify post_analyze post_generate_report
     ret return_ raise app store tick res final trace] in H.

(** The decision a stuck run waits for: a checkpoint, a stage reply, or
    the test for an empty scrape. *)
Ltac next_decision t :=
  lazymatch t with
  | select_cancelled _ _ => t
  | scraper _ _ => t
  | classifier _ _ => t
  | analysis _ _ => t
  | report_generator _ _ => t
  | bool_decide (_ = []) => t
  | match ?s with _ => _ end => next_decision s
  | ?f _ => next_decision f
  end.

Ltac run_case H :=
  lazymatch type of H with
  | _ = ?t =>
      let d := next_decision t in
      lazymatch d with
      | bool_decide (?xs = []) =>
          let He := fresh "Hempty" in
          destruct (bool_decide_reflect (xs = [])) as [He|He]
      | select_cancelled _ _ =>
          let Hc := fresh "Hchk" in destruct d eqn:Hc
      | _ =>
          let Hr := fresh "Hreply" in destruct d eqn:Hr
      end
  end.

(** All the paths of the run named by [H : r = run_pipeline ...]. *)
Ltac run_paths H :=
  run_whd H; repeat (run_case H; run_whd H); subst.

(** Membership in an explicit trace, event by event. *)
Ltac elem_cases H :=
  repeat (apply elem_of_cons in H as [H|H]; [try discriminate H|]);
  try (by apply elem_of_nil in H).

(** Find an event in an explicit trace. *)
Ltac elem_here :=
  repeat first [ apply list_elem_of_here | apply list_elem_of_further ].

(** Every event of an explicit trace. *)
Ltac each_event := apply Forall_forall; repeat constructor.

(** The row through the layers of UPDATEs and served cancellations; [tac]
    shows that each layer keeps the row predicate. *)
Ltac row_layers tac :=
  repeat first
    [ eassumption
    | apply row_sat_update_inv; [tac|]
    | apply row_sat_access; [tac|] ].

(** Side conditions of [row_layers] when the predicate reads columns that
    neither the UPDATE at hand nor a cancellation writes. *)
Ltac frame_side :=
  first
    [ intros ? ? Hframe ?; unfold cancel_frame in Hframe; destruct_and!;
      repeat split; congruence
    | intros ? ?; cbn; destruct_and?; repeat split; done ].

(** The trace of a closed run, computed. *)
Ltac compute_trace :=
  repeat match goal with
  | |- context [trace ?r] =>
      let t := eval vm_compute in (trace r) in change (trace r) with t
  end.

Ltac compute_trace_in H :=
  repeat match type of H with
  | context [trace ?r] =>
      let t := eval vm_compute in (trace r) in change (trace r) with t in H
  end.

(** ** The orchestrator: C2 to C7 and C9 *)

(** C2: in a run whose scrape call returns no review, the exception of
    line 79 is raised, the row ends with status FAILED, progress 0 and a
    non-empty error text, and neither the classify nor the analyze nor the
    render stage is called. *)
Theorem scrape_empty_fails E job_id product_name mau arpu w job payload body :
  store w !! job_id = Some job →
  EvScrape payload (Responded body)
    ∈ trace (run_pipeline E job_id product_name mau arpu w) →
  ReviewsBody.get_reviews body = [] →
  let r := run_pipeline E job_id product_name mau arpu w in
  res r = Raise (ValueError
                   "Scraper returned 0 reviews. Check product name or sources.")
  ∧ row_sat (fun j => Job.status j = JobStatus.FAILED
                      ∧ Job.progress_pct j = 0
                      ∧ ∃ msg, Job.error j = Some msg ∧ msg ≠ "")
      job_id (store (final r))
  ∧ ∀ ev, ev ∈ trace r → downstream_call ev = false.
Proof.
  destruct w as [db n]. cbn [store]. intros Hrow.
  assert (Hsat : row_sat (fun _ => True) job_id db) by (by exists job).
  clear Hrow. cbv zeta.
  remember (run_pipeline E job_id product_name mau arpu (World db n))
    as r eqn:Hr.
  run_paths Hr; cbn [res final trace store]; intros Hin Hnone;
    elem_cases Hin; injection Hin as -> ->; try congruence.
  split; [reflexivity|]. split; [|each_event].
  apply (row_sat_update (fun _ => True)).
  - intros j _. cbn. repeat split. eexists. split; [reflexivity|discriminate].
  - row_layers frame_side.
Qed.

Lemma scrape_empty_fails_witness :
  res (demo_run empty_scrape_env)
  = Raise (ValueError
             "Scraper returned 0 reviews. Check product name or sources.")
  ∧ row_sat (fun j => Job.status j = JobStatus.FAILED
                      ∧ Job.progress_pct j = 0
                      ∧ ∃ msg, Job.error j = Some msg ∧ msg ≠ "")
      "j1" (store (final (demo_run empty_scrape_env)))
  ∧ ∀ ev, ev ∈ trace (demo_run empty_scrape_env) → downstream_call ev = false.
Proof.
  apply (scrape_empty_fails empty_scrape_env "j1" "acme" (Some 1000) None
           (World demo_db 0) demo_job (ScrapePayload.mk "acme" "j1")
           (ReviewsBody.mk (Some []))).
  - reflexivity.
  - compute_trace. elem_here.
  - reflexivity.
Defined.

(** C3, counterexample: two reviews are scraped, the classifier accepts
    none, and the user cancels while the classify call is in flight. The
    checkpoint after the classify call reads CANCELLED and the run
    returns: analyze is never called. *)
Lemma cancel_during_classify_skips_analyze :
  let r := demo_run cancel_during_classify_env in
  EvScrape (ScrapePayload.mk "acme" "j1")
    (Responded (ReviewsBody.mk (Some demo_reviews))) ∈ trace r
  ∧ EvClassify (ClassifyPayload.mk demo_reviews "j1" "acme")
      (Responded (ReviewsBody.mk (Some []))) ∈ trace r
  ∧ res r = Returned
  ∧ last (trace r) = Some (EvCheck "j1" true)
  ∧ (∀ payload reply, EvAnalyze payload reply ∉ trace r)
  ∧ ¬ low_yield_always_reaches_analyze.
Proof.
  cbv zeta.
  assert (Hnone : ∀ payload reply,
            EvAnalyze payload reply ∉ trace (demo_run cancel_during_classify_env)).
  { intros payload reply Hin. compute_trace_in Hin. elem_cases Hin. }
  split; [compute_trace; elem_here|].
  split; [compute_trace; elem_here|].
  split; [reflexivity|]. split; [reflexivity|]. split; [exact Hnone|].
  intros Hclaim.
  destruct (Hclaim cancel_during_classify_env "j1" "acme" (Some 1000) None
              (World demo_db 0) (ScrapePayload.mk "acme" "j1")
              (ReviewsBody.mk (Some demo_reviews))
              (ClassifyPayload.mk demo_reviews "j1" "acme")
              (ReviewsBody.mk (Some []))) as [reply Hin].
  - compute_trace. elem_here.
  - discriminate.
  - compute_trace. elem_here.
  - cbn. lia.
  - exact (Hnone _ _ Hin).
Qed.

(** C3, amended: in a run whose scrape call returns a non-empty list and
    whose classify call returns fewer than 5 items, analyze is never called
    with anything but the first 15 raw items, and it is called with them
    unless a checkpoint after the classify call reads CANCELLED, in which
    case the run returns there. The low yield does not fail the job: the
    run raises only if the analyze or the render call raises. *)
Theorem low_yield_falls_back_to_raw
    E job_id product_name mau arpu w p1 raw p2 clean :
  let r := run_pipeline E job_id product_name mau arpu w in
  EvScrape p1 (Responded raw) ∈ trace r →
  ReviewsBody.get_reviews raw ≠ [] →
  EvClassify p2 (Responded clean) ∈ trace r →
  (length (ReviewsBody.get_reviews clean) < 5)%nat →
  let payload :=
    AnalyzePayload.mk product_name (take 15 (ReviewsBody.get_reviews raw))
      job_id mau arpu in
  (∀ p reply, EvAnalyze p reply ∈ trace r → p = payload)
  ∧ ((∃ reply, EvAnalyze payload reply ∈ trace r)
     ∨ res r = Returned ∧ last (trace r) = Some (EvCheck job_id true))
  ∧ (∀ e, res r = Raise e →
       (∃ p, EvAnalyze p (Raised e) ∈ trace r)
       ∨ (∃ p, EvReport p (Raised e) ∈ trace r)).
Proof.
  destruct w as [db n]. cbv zeta.
  remember (run_pipeline E job_id product_name mau arpu (World db n))
    as r eqn:Hr.
  run_paths Hr; cbn [res final trace store]; intros Hscr _ Hcls Hlen;
    elem_cases Hscr; elem_cases Hcls;
    injection Hscr as -> ->; injection Hcls as -> ->;
    rewrite ?bool_decide_eq_true_2 by exact Hlen.
  all: split;
    [ intros p reply Hin; elem_cases Hin; by injection Hin as -> _ | ].
  all: split;
    [ first [ right; split; reflexivity | left; eexists; elem_here ] | ].
  all: intros e0 Hres; try discriminate Hres; injection Hres as ->.
  all: first [ left; eexists; elem_here; fail | right; eexists; elem_here ].
Qed.

Lemma low_yield_falls_back_to_raw_witness :
  let r := demo_run demo_env in
  let payload := AnalyzePayload.mk "acme" demo_reviews "j1" (Some 1000) None in
  (∀ p reply, EvAnalyze p reply ∈ trace r → p = payload)
  ∧ ((∃ reply, EvAnalyze payload reply ∈ trace r)
     ∨ res r = Returned ∧ last (trace r) = Some (EvCheck "j1" true))
  ∧ (∀ e, res r = Raise e →
       (∃ p, EvAnalyze p (Raised e) ∈ trace r)
       ∨ (∃ p, EvReport p (Raised e) ∈ trace r)).
Proof.
  apply (low_yield_falls_back_to_raw demo_env "j1" "acme" (Some 1000) None
           (World demo_db 0) (ScrapePayload.mk "acme" "j1")
           (ReviewsBody.mk (Some demo_reviews))
           (ClassifyPayload.mk demo_reviews "j1" "acme")
           (ReviewsBody.mk (Some []))).
  - compute_trace. elem_here.
  - discriminate.
  - compute_trace. elem_here.
  - cbn. lia.
Defined.



(** C5: the row starts with [result_json] and [report_path] unset. If the
    render call raises, the row ends with status FAILED and both columns
    still unset. In every run [result_json] is written only by the UPDATE
    that sets status done, and a run that raises leaves it unset. *)
Theorem render_failure_leaves_no_result E job_id product_name mau arpu w job :
  store w !! job_id = Some job →
  Job.result_json job = None →
  Job.report_path job = None →
  let r := run_pipeline E job_id product_name mau arpu w in
  (∀ payload e,
     EvReport payload (Raised e) ∈ trace r →
     row_sat (fun j => Job.status j = JobStatus.FAILED
                       ∧ Job.result_json j = None
                       ∧ Job.report_path j = None)
       job_id (store (final r)))
  ∧ (∀ j kwargs v,
       EvUpdate j kwargs ∈ trace r →
       K_result_json v ∈ kwargs →
       K_status JobStatus.DONE ∈ kwargs)
  ∧ (∀ e,
       res r = Raise e →
       row_sat (fun j => Job.status j = JobStatus.FAILED
                         ∧ Job.result_json j = None)
         job_id (store (final r))).
Proof.
  destruct w as [db n]. cbn [store]. intros Hrow Hres Hpath.
  assert (Hsat : row_sat (fun j => Job.result_json j = None
                                   ∧ Job.report_path j = None) job_id db)
    by (by exists job).
  clear Hrow Hres Hpath. cbv zeta.
  remember (run_pipeline E job_id product_name mau arpu (World db n))
    as r eqn:Hr.
  run_paths Hr; cbn [res final trace store]; (split; [|split]).
  all: try (intros payload e0 Hin; elem_cases Hin; fail).
  all: try (intros e0 Hres; discriminate Hres).
  all: try (intros j kwargs v Hin Hk; elem_cases Hin;
            injection Hin as -> ->; elem_cases Hk;
            rewrite !elem_of_cons; auto; fail).
  all: intros;
    apply (row_sat_update (fun j => Job.result_json j = None
                                    ∧ Job.report_path j = None));
    [ by intros ? [? ?] | row_layers frame_side ].
Qed.

Lemma render_failure_leaves_no_result_witness :
  row_sat (fun j => Job.status j = JobStatus.FAILED
                    ∧ Job.result_json j = None
                    ∧ Job.report_path j = None)
    "j1" (store (final (demo_run render_down_env))).
Proof.
  refine (proj1 (render_failure_leaves_no_result render_down_env "j1" "acme"
                   (Some 1000) None (World demo_db 0) demo_job _ _ _)
            (ReportPayload.mk "j1" "acme" demo_analysis demo_reviews)
            (Exception "ReadTimeout" "timed out") _).
  - reflexivity.
  - reflexivity.
  - reflexivity.
  - compute_trace. elem_here.
Defined.

(** C6: if the checkpoint that follows the scrape call reads CANCELLED,
    nothing follows it: the run returns, no later stage is called, the
    only status the run wrote is scraping, the row's status is still
    CANCELLED, and an unset [result_json] is still unset. *)
Theorem cancelled_after_scrape_stops E job_id product_name mau arpu w :
  let r := run_pipeline E job_id product_name mau arpu w in
  head (after_scrape (trace r)) = Some (EvCheck job_id true) →
  after_scrape (trace r) = [EvCheck job_id true]
  ∧ res r = Returned
  ∧ (∀ ev, ev ∈ trace r → downstream_call ev = false)
  ∧ statuses_written job_id (trace r) = [JobStatus.SCRAPING]
  ∧ row_sat (fun j => Job.status j = JobStatus.CANCELLED)
      job_id (store (final r))
  ∧ (row_sat (fun j => Job.result_json j = None) job_id (store w) →
     row_sat (fun j => Job.result_json j = None) job_id (store (final r))).
Proof.
  destruct w as [db n]. cbn [store]. cbv zeta.
  remember (run_pipeline E job_id product_name mau arpu (World db n))
    as r eqn:Hr.
  run_paths Hr; cbn [res final trace store after_scrape head];
    intros Hhead; try discriminate Hhead.
  split; [reflexivity|]. split; [reflexivity|]. split; [each_event|].
  split. { cbn. by rewrite String.eqb_refl. }
  split. { by apply select_cancelled_true. }
  intros Hsat. row_layers frame_side.
Qed.

Lemma cancelled_after_scrape_stops_witness :
  let r := demo_run cancel_during_scrape_env in
  after_scrape (trace r) = [EvCheck "j1" true]
  ∧ res r = Returned
  ∧ (∀ ev, ev ∈ trace r → downstream_call ev = false)
  ∧ statuses_written "j1" (trace r) = ["scraping"]
  ∧ row_sat (fun j => Job.status j = JobStatus.CANCELLED)
      "j1" (store (final r))
  ∧ (row_sat (fun j => Job.result_json j = None) "j1" demo_db →
     row_sat (fun j => Job.result_json j = None) "j1" (store (final r))).
Proof.
  apply (cancelled_after_scrape_stops cancel_during_scrape_env "j1" "acme"
           (Some 1000) None (World demo_db 0)).
  reflexivity.
Defined.

(** C7: when a stage call raises [e], the run raises [e]; the last thing
    the worker does before is the UPDATE to status failed with error
    [str(e)] and progress 0; it is the only UPDATE of the run that sets
    status failed, and the row ends FAILED with that error and progress 0. *)
Theorem stage_exception_marks_failed
    E job_id product_name mau arpu w job ev e :
  store w !! job_id = Some job →
  let r := run_pipeline E job_id product_name mau arpu w in
  ev ∈ trace r →
  stage_raised ev = Some e →
  res r = Raise e
  ∧ (∃ now,
       last (trace r)
       = Some (EvUpdate job_id
                 [K_status "failed"; K_stage "Failed"; K_error (str e);
                  K_progress_pct 0; K_updated_at now]))
  ∧ length (List.filter (sets_status JobStatus.FAILED) (trace r)) = 1%nat
  ∧ row_sat (fun j => Job.status j = JobStatus.FAILED
                      ∧ Job.error j = Some (str e)
                      ∧ Job.progress_pct j = 0)
      job_id (store (final r)).
Proof.
  destruct w as [db n]. cbn [store]. intros Hrow.
  assert (Hsat : row_sat (fun _ => True) job_id db) by (by exists job).
  clear Hrow. cbv zeta.
  remember (run_pipeline E job_id product_name mau arpu (World db n))
    as r eqn:Hr.
  run_paths Hr; cbn [res final trace store]; intros Hin Hraised;
    elem_cases Hin; subst ev; try discriminate Hraised;
    injection Hraised as ->.
  all: split; [reflexivity|].
  all: split; [eexists; reflexivity|].
  all: split; [reflexivity|].
  all: apply (row_sat_update (fun _ => True));
    [ by intros j _ | row_layers frame_side ].
Qed.

Lemma stage_exception_marks_failed_witness :
  let r := demo_run classify_down_env in
  let e := Exception "ConnectError" "connection refused" in
  res r = Raise e
  ∧ (∃ now,
       last (trace r)
       = Some (EvUpdate "j1"
                 [K_status "failed"; K_stage "Failed";
                  K_error "connection refused";
                  K_progress_pct 0; K_updated_at now]))
  ∧ length (List.filter (sets_status JobStatus.FAILED) (trace r)) = 1%nat
  ∧ row_sat (fun j => Job.status j = JobStatus.FAILED
                      ∧ Job.error j = Some "connection refused"
                      ∧ Job.progress_pct j = 0)
      "j1" (store (final r)).
Proof.
  apply (stage_exception_marks_failed classify_down_env "j1" "acme"
           (Some 1000) None (World demo_db 0) demo_job
           (EvClassify (ClassifyPayload.mk demo_reviews "j1" "acme")
              (Raised (Exception "ConnectError" "connection refused")))).
  - reflexivity.
  - compute_trace. elem_here.
  - reflexivity.
Defined.

(** C9: the review list of every analyze call is non-empty. The run got
    there after a scrape call that returned at least one item and a
    classify call that returned; the list is the classifier's, of at least
    5 items, or the first 15 raw items, a non-empty prefix of the raw
    list. *)
Theorem analyze_input_nonempty E job_id product_name mau arpu w payload reply :
  let r := run_pipeline E job_id product_name mau arpu w in
  EvAnalyze payload reply ∈ trace r →
  AnalyzePayload.reviews payload ≠ []
  ∧ ∃ p1 raw p2 clean,
      EvScrape p1 (Responded raw) ∈ trace r
      ∧ ReviewsBody.get_reviews raw ≠ []
      ∧ EvClassify p2 (Responded clean) ∈ trace r
      ∧ ((5 ≤ length (ReviewsBody.get_reviews clean))%nat
         ∧ AnalyzePayload.reviews payload = ReviewsBody.get_reviews clean
         ∨ (length (ReviewsBody.get_reviews clean) < 5)%nat
           ∧ AnalyzePayload.reviews payload
             = take 15 (ReviewsBody.get_reviews raw)
           ∧ AnalyzePayload.reviews payload
             `prefix_of` ReviewsBody.get_reviews raw).
Proof.
  destruct w as [db n]. cbv zeta.
  remember (run_pipeline E job_id product_name mau arpu (World db n))
    as r eqn:Hr.
  run_paths Hr; cbn [res final trace store]; intros Hin;
    elem_cases Hin; injection Hin as -> _; cbn [AnalyzePayload.reviews].
  all: (split;
    [| eexists _, _, _, _; split; [|split; [eassumption|split]];
       [ elem_here | elem_here | ] ]).
  all: case_bool_decide as Hlen.
  all: try (right; split; [lia|]; split; [reflexivity|]; apply prefix_take).
  all: try (left; split; [lia|reflexivity]).
  all: try (intros Hnil; rewrite Hnil in Hlen; cbn in Hlen; lia).
  all: destruct (ReviewsBody.get_reviews body) eqn:Hraw; [done|discriminate].
Qed.

Lemma analyze_input_nonempty_witness :
  let r := demo_run demo_env in
  demo_reviews ≠ []
  ∧ ∃ p1 raw p2 clean,
      EvScrape p1 (Responded raw) ∈ trace r
      ∧ ReviewsBody.get_reviews raw ≠ []
      ∧ EvClassify p2 (Responded clean) ∈ trace r
      ∧ ((5 ≤ length (ReviewsBody.get_reviews clean))%nat
         ∧ demo_reviews = ReviewsBody.get_reviews clean
         ∨ (length (ReviewsBody.get_reviews clean) < 5)%nat
           ∧ demo_reviews = take 15 (ReviewsBody.get_reviews raw)
           ∧ demo_reviews `prefix_of` ReviewsBody.get_reviews raw).
Proof.
  apply (analyze_input_nonempty demo_env "j1" "acme" (Some 1000) None
           (World demo_db 0)
           (AnalyzePayload.mk "acme" demo_reviews "j1" (Some 1000) None)
           (Responded demo_analysis)).
  compute_trace. elem_here.
Defined.

(** ** More on the gateway handlers *)

(** X1: right after [POST /analyze] stored a job under a fresh id, polling
    shows it queued at progress 0 with no error and no report, its result
    is "not yet", and what the endpoints answer for any other id is as
    before. *)
Theorem analyze_then_poll req uuid4 created updated (db : gmap string Job.t) :
  db !! uuid4 = None →
  let db' := (analyze req uuid4 created updated db).2 in
  (analyze req uuid4 created updated db).1
  = Http200 (JobResponse.mk uuid4 JobStatus.QUEUED
               ("Job queued. Poll /status/" +:+ uuid4 +:+ " for updates."))
  ∧ get_status uuid4 db'
    = Http200 (StatusResponse.mk uuid4 JobStatus.QUEUED
                 "Queued — waiting for worker" 0 None None)
  ∧ get_result_json uuid4 db' = HTTPException 400 "No result yet"
  ∧ ∀ other, other ≠ uuid4 →
      get_status other db' = get_status other db
      ∧ get_result_json other db' = get_result_json other db.
Proof.
  intros Hfresh. cbv zeta. unfold analyze. rewrite Hfresh. cbn [fst snd].
  split; [reflexivity|].
  unfold get_status, get_result_json. rewrite lookup_insert_eq. cbn.
  split; [reflexivity|]. split; [reflexivity|].
  intros other Hne. by rewrite lookup_insert_ne.
Qed.

Lemma analyze_then_poll_witness :
  get_status "j1" demo_db
  = Http200 (StatusResponse.mk "j1" "queued" "Queued — waiting for worker"
               0 None None).
Proof.
  exact (proj1 (proj2 (analyze_then_poll demo_request "j1" 1 2 ∅ eq_refl))).
Defined.

(** X2: once a cancel is accepted for a row stored under its own id,
    polling answers exactly what the cancel call answered, the stored
    result is as before, and cancelling again answers the same and leaves
    the store as it is. *)
Theorem cancel_then_poll (db db' : gmap string Job.t) job_id now job resp :
  db !! job_id = Some job →
  Job.job_id job = job_id →
  cancel_job job_id now db = (Http200 resp, db') →
  get_status job_id db' = Http200 resp
  ∧ get_result_json job_id db' = get_result_json job_id db
  ∧ ∀ later, cancel_job job_id later db' = (Http200 resp, db').
Proof.
  intros Hrow Hid Hcancel.
  assert (Hst : Job.status job ∉ [JobStatus.DONE; JobStatus.FAILED]).
  { intros Hin. rewrite (cancel_job_rejected _ _ _ job) in Hcancel by done.
    discriminate Hcancel. }
  destruct (cancel_job_accepted job_id now db job Hrow Hst)
    as (j' & Heq & Hs & Hg & He & Hf).
  rewrite Hcancel in Heq. injection Heq as -> ->.
  unfold cancel_frame in Hf. destruct Hf as (Hi & _ & Hp & _ & Hr & _).
  split; [|split].
  - unfold get_status. rewrite lookup_insert_eq, Hs, Hg, He, Hp, Hid.
    reflexivity.
  - unfold get_result_json. by rewrite lookup_insert_eq, Hrow, Hr.
  - intros later. unfold cancel_job. rewrite lookup_insert_eq.
    destruct (decide _) as [Hin|_].
    { rewrite Hs in Hin. refute_elem_of Hin. }
    unfold orm_commit. rewrite decide_True.
    + rewrite Hs, Hg, He, Hp, Hi, Hid. by rewrite insert_insert_eq.
    + cbn. by rewrite Hs, Hg, He.
Qed.

Lemma cancel_then_poll_witness :
  get_status "j1" (cancel_job "j1" 7 demo_db).2
  = (cancel_job "j1" 7 demo_db).1.
Proof.
  refine (proj1 (cancel_then_poll demo_db (cancel_job "j1" 7 demo_db).2
                   "j1" 7 demo_job _ _ _ _)).
  - reflexivity.
  - reflexivity.
  - vm_compute. reflexivity.
Defined.

(** X3: the cancel endpoint never adds or removes a row, answers 404 for
    an id it does not know, and leaves the store untouched whenever it
    answers with an error. *)
Theorem cancel_job_keeps_rows (db : gmap string Job.t) job_id now :
  dom (cancel_job job_id now db).2 = dom db
  ∧ (db !! job_id = None →
     (cancel_job job_id now db).1 = HTTPException 404 "Job not found")
  ∧ ∀ code detail,
      (cancel_job job_id now db).1 = HTTPException code detail →
      (cancel_job job_id now db).2 = db.
Proof.
  unfold cancel_job. destruct (db !! job_id) as [job|] eqn:Hrow.
  - destruct (decide _); cbn [fst snd].
    + split; [done|]. split; [done|]. done.
    + split; [|split; [done|discriminate]].
      apply dom_insert_lookup_L. by rewrite Hrow.
  - cbn [fst snd]. done.
Qed.

(** ** More on the worker *)

Lemma lookup_sql_update_ne job_id other kwargs (db : gmap string Job.t) :
  job_id ≠ other → sql_update job_id kwargs db !! other = db !! other.
Proof. intros Hne. unfold sql_update. by rewrite lookup_alter_ne. Qed.

Lemma lookup_sql_update_None job_id kwargs (db : gmap string Job.t) :
  db !! job_id = None → sql_update job_id kwargs db !! job_id = None.
Proof. intros Hnone. by rewrite lookup_sql_update, Hnone. Qed.

Lemma serve_cancels_None reqs job_id (db : gmap string Job.t) :
  db !! job_id = None → serve_cancels reqs db !! job_id = None.
Proof.
  revert db. induction reqs as [|[other now] reqs IH]; intros db Hnone; [done|].
  cbn. apply IH. destruct (decide (other = job_id)) as [->|Hne].
  - unfold cancel_job. by rewrite Hnone.
  - by rewrite cancel_job_lookup_ne.
Qed.

Lemma lookup_access_None E job_id db n :
  db !! job_id = None → store_at_access E (World db n) !! job_id = None.
Proof. apply serve_cancels_None. Qed.

Lemma lookup_access_quiet E other db n :
  other ∉ (cancel_requests E n).*1 →
  store_at_access E (World db n) !! other = db !! other.
Proof. apply serve_cancels_absent. Qed.

Lemma serve_cancels_keeps_cancelled reqs job_id db :
  row_sat (fun j => Job.status j = JobStatus.CANCELLED) job_id db →
  row_sat (fun j => Job.status j = JobStatus.CANCELLED) job_id
    (serve_cancels reqs db).
Proof.
  revert db. induction reqs as [|[other now] reqs IH]; intros db Hsat; [done|].
  cbn. apply IH. destruct Hsat as (j & Hj & Hs).
  destruct (decide (other = job_id)) as [->|Hne].
  - destruct (cancel_job_accepted job_id now db j) as (j' & -> & Hs' & _);
      [done| |].
    + rewrite Hs. intros Hin. refute_elem_of Hin.
    + exists j'. cbn. by rewrite lookup_insert_eq.
  - exists j. by rewrite cancel_job_lookup_ne.
Qed.

(** X4: the stage calls of a run come in the order scrape, classify,
    analyze, render, each at most once, and a call that raised is the last
    call of the run. *)
Theorem stage_calls_in_order E job_id product_name mau arpu w :
  let log := call_log (trace (run_pipeline E job_id product_name mau arpu w)) in
  log.*1 `prefix_of` [Scrape; Classify; Analyze; Render]
  ∧ ∀ i s, log !! i = Some (s, false) → length log = S i.
Proof.
  destruct w as [db n]. cbv zeta.
  remember (run_pipeline E job_id product_name mau arpu (World db n))
    as r eqn:Hr.
  run_paths Hr; cbn [trace]; unfold call_log; cbn [omap list_omap call_of].
  all: (split; [by eexists|]).
  all: intros i s Hi;
    repeat (destruct i as [|i]; cbn in Hi;
            [first [discriminate Hi|reflexivity]|]; try discriminate Hi).
Qed.

(** X5: what the worker sends. The scrape request carries the job's id and
    product name; the classify request carries the scraped reviews as they
    came; the analyze request carries the job's id, name, mau and arpu;
    the render request carries the analysis as it came and the very
    reviews that were analyzed. *)
Theorem payloads_are_threaded E job_id product_name mau arpu w :
  let r := run_pipeline E job_id product_name mau arpu w in
  (∀ p reply, EvScrape p reply ∈ trace r →
     p = ScrapePayload.mk product_name job_id)
  ∧ (∀ p reply, EvClassify p reply ∈ trace r →
       ∃ p1 raw,
         EvScrape p1 (Responded raw) ∈ trace r
         ∧ p = ClassifyPayload.mk (ReviewsBody.get_reviews raw) job_id
                 product_name)
  ∧ (∀ p reply, EvAnalyze p reply ∈ trace r →
       AnalyzePayload.job_id p = job_id
       ∧ AnalyzePayload.product_name p = product_name
       ∧ AnalyzePayload.mau p = mau
       ∧ AnalyzePayload.arpu p = arpu)
  ∧ (∀ p reply, EvReport p reply ∈ trace r →
       ∃ pa result,
         EvAnalyze pa (Responded result) ∈ trace r
         ∧ p = ReportPayload.mk job_id product_name result
                 (AnalyzePayload.reviews pa)).
Proof.
  destruct w as [db n]. cbv zeta.
  remember (run_pipeline E job_id product_name mau arpu (World db n))
    as r eqn:Hr.
  run_paths Hr; cbn [trace]; (split; [|split; [|split]]).
  all: try (intros p reply Hin; elem_cases Hin; injection Hin as -> _;
            first [ reflexivity
                  | by repeat split
                  | eexists _, _; split; [elem_here|reflexivity] ]).
Qed.

(** X6: however a run ends, it leaves the job in the matching terminal
    state: DONE when it ran to the end, FAILED with the exception's text
    when it raised, CANCELLED when it returned at a checkpoint. *)
Theorem run_ends_terminal E job_id product_name mau arpu w job :
  store w !! job_id = Some job →
  let r := run_pipeline E job_id product_name mau arpu w in
  match res r with
  | Normal _ =>
      row_sat (fun j => Job.status j = JobStatus.DONE
                        ∧ Job.progress_pct j = 100) job_id (store (final r))
  | Returned =>
      row_sat (fun j => Job.status j = JobStatus.CANCELLED)
        job_id (store (final r))
  | Raise e =>
      row_sat (fun j => Job.status j = JobStatus.FAILED
                        ∧ Job.error j = Some (str e)
                        ∧ Job.progress_pct j = 0) job_id (store (final r))
  end.
Proof.
  destruct w as [db n]. cbn [store]. intros Hrow.
  assert (Hsat : row_sat (fun _ => True) job_id db) by (by exists job).
  clear Hrow. cbv zeta.
  remember (run_pipeline E job_id product_name mau arpu (World db n))
    as r eqn:Hr.
  run_paths Hr; cbn [res final store].
  all: first
    [ by apply select_cancelled_true
    | apply (row_sat_update (fun _ => True));
      [ by intros j _ | row_layers frame_side ] ].
Qed.

Lemma run_ends_terminal_witness :
  row_sat (fun j => Job.status j = JobStatus.FAILED
                    ∧ Job.error j = Some "connection refused"
                    ∧ Job.progress_pct j = 0)
    "j1" (store (final (demo_run classify_down_env))).
Proof.
  pose proof (run_ends_terminal classify_down_env "j1" "acme" (Some 1000)
                None (World demo_db 0) demo_job eq_refl) as Hend.
  cbv zeta in Hend.
  assert (Hres : res (demo_run classify_down_env)
                 = Raise (Exception "ConnectError" "connection refused"))
    by (vm_compute; reflexivity).
  unfold demo_run in Hres. rewrite Hres in Hend. exact Hend.
Defined.

(** X7: a run that reaches its end has stored what the stages returned,
    also when cancel requests were served on the way: polling shows the
    job done at 100 with its report link, the row holds the render
    stage's [report_path], and the result endpoint returns the analysis
    (or "No result yet" when the analysis is an empty object). *)
Theorem completed_run_is_served E job_id product_name mau arpu w job :
  store w !! job_id = Some job →
  let r := run_pipeline E job_id product_name mau arpu w in
  res r = Normal tt →
  ∃ pa result pr path,
    EvAnalyze pa (Responded result) ∈ trace r
    ∧ EvReport pr (Responded (ReportBody.mk path)) ∈ trace r
    ∧ row_sat (fun j => Job.report_path j = path
                        ∧ Job.result_json j = Some result)
        job_id (store (final r))
    ∧ (∃ err,
         get_status job_id (store (final r))
         = Http200 (StatusResponse.mk job_id JobStatus.DONE "Complete" 100
                      err (Some ("/report/" +:+ job_id))))
    ∧ get_result_json job_id (store (final r))
      = match result with
        | [] => HTTPException 400 "No result yet"
        | _ => Http200 result
        end.
Proof.
  destruct w as [db n]. cbn [store]. intros Hrow.
  assert (Hsat : row_sat (fun _ => True) job_id db) by (by exists job).
  clear Hrow. cbv zeta.
  remember (run_pipeline E job_id product_name mau arpu (World db n))
    as r eqn:Hr.
  run_paths Hr; cbn [res final trace store]; intros Hres;
    try discriminate Hres.
  match goal with
  | |- context [sql_update job_id ?kw ?db0] =>
      assert (Hlast : row_sat (fun _ => True) job_id db0)
        by row_layers frame_side;
      destruct Hlast as (j & Hj & _);
      pose proof (lookup_sql_update job_id kw db0) as Hlook;
      rewrite Hj in Hlook; cbn in Hlook
  end.
  destruct body2 as [path].
  eexists _, _, _, _. split; [elem_here|]. split; [elem_here|].
  split; [|split].
  - eexists. split; [exact Hlook|]. by split.
  - eexists. unfold get_status. rewrite Hlook. reflexivity.
  - unfold get_result_json. rewrite Hlook. cbn. by destruct body1.
Qed.

Lemma completed_run_is_served_witness :
  let r := demo_run demo_env in
  ∃ pa result pr path,
    EvAnalyze pa (Responded result) ∈ trace r
    ∧ EvReport pr (Responded (ReportBody.mk path)) ∈ trace r
    ∧ row_sat (fun j => Job.report_path j = path
                        ∧ Job.result_json j = Some result)
        "j1" (store (final r))
    ∧ (∃ err,
         get_status "j1" (store (final r))
         = Http200 (StatusResponse.mk "j1" JobStatus.DONE "Complete" 100
                      err (Some "/report/j1")))
    ∧ get_result_json "j1" (store (final r))
      = match result with
        | [] => HTTPException 400 "No result yet"
        | _ => Http200 result
        end.
Proof.
  apply (completed_run_is_served demo_env "j1" "acme" (Some 1000) None
           (World demo_db 0) demo_job).
  - reflexivity.
  - vm_compute. reflexivity.
Defined.

(** X8: a run never rewrites what the job was created with: the row's
    [job_id], [product_name], [created_at], [mau] and [arpu] are the same
    after the run, whatever the stages return and whoever cancels. *)
Theorem run_keeps_job_inputs E job_id product_name mau arpu w job :
  store w !! job_id = Some job →
  let r := run_pipeline E job_id product_name mau arpu w in
  row_sat (fun j => Job.job_id j = Job.job_id job
                    ∧ Job.product_name j = Job.product_name job
                    ∧ Job.created_at j = Job.created_at job
                    ∧ Job.mau j = Job.mau job
                    ∧ Job.arpu j = Job.arpu job)
    job_id (store (final r)).
Proof.
  destruct w as [db n]. cbn [store]. intros Hrow.
  assert (Hsat : row_sat (fun j => Job.job_id j = Job.job_id job
                                   ∧ Job.product_name j = Job.product_name job
                                   ∧ Job.created_at j = Job.created_at job
                                   ∧ Job.mau j = Job.mau job
                                   ∧ Job.arpu j = Job.arpu job) job_id db)
    by (by exists job).
  clear Hrow. cbv zeta.
  remember (run_pipeline E job_id product_name mau arpu (World db n))
    as r eqn:Hr.
  run_paths Hr; cbn [final store]; row_layers frame_side.
Qed.

Lemma run_keeps_job_inputs_witness :
  row_sat (fun j => Job.job_id j = "j1"
                    ∧ Job.product_name j = "acme"
                    ∧ Job.created_at j = 1
                    ∧ Job.mau j = Some 1000
                    ∧ Job.arpu j = None)
    "j1" (store (final (demo_run render_down_env))).
Proof.
  exact (run_keeps_job_inputs render_down_env "j1" "acme" (Some 1000) None
           (World demo_db 0) demo_job eq_refl).
Defined.

(** X9: a run touches no row but its own. A row of another job that
    nobody cancels meanwhile is the same after the run, and a job that has
    no row gets none: the worker's UPDATEs never insert. *)
Theorem run_touches_own_row_only E job_id product_name mau arpu w :
  let r := run_pipeline E job_id product_name mau arpu w in
  (store w !! job_id = None → store (final r) !! job_id = None)
  ∧ ∀ other,
      other ≠ job_id →
      (∀ k, other ∉ (cancel_requests E k).*1) →
      store (final r) !! other = store w !! other.
Proof.
  destruct w as [db n]. cbn [store]. cbv zeta.
  remember (run_pipeline E job_id product_name mau arpu (World db n))
    as r eqn:Hr.
  run_paths Hr; cbn [final store];
    (split;
     [ intros Hnone;
       repeat first [ exact Hnone
                    | apply lookup_sql_update_None
                    | apply lookup_access_None ]
     | intros other Hne Hquiet;
       repeat first [ rewrite lookup_sql_update_ne by done
                    | rewrite lookup_access_quiet by apply Hquiet ];
       reflexivity ]).
Qed.

(** X10: a job that is already CANCELLED when its run starts is left
    alone: the first checkpoint reads CANCELLED and the run returns with
    no stage call and no UPDATE. *)
Theorem run_on_cancelled_job_returns E job_id product_name mau arpu w :
  row_sat (fun j => Job.status j = JobStatus.CANCELLED) job_id (store w) →
  let r := run_pipeline E job_id product_name mau arpu w in
  trace r = [EvCheck job_id true]
  ∧ res r = Returned
  ∧ row_sat (fun j => Job.status j = JobStatus.CANCELLED)
      job_id (store (final r)).
Proof.
  destruct w as [db n]. cbn [store]. intros Hsat. cbv zeta.
  assert (Hnow : row_sat (fun j => Job.status j = JobStatus.CANCELLED) job_id
                   (store_at_access E (World db n)))
    by (by apply serve_cancels_keeps_cancelled).
  assert (Hchk : select_cancelled job_id (store_at_access E (World db n))
                 = true).
  { destruct Hnow as (j & Hj & Hs). unfold select_cancelled. rewrite Hj.
    by apply bool_decide_eq_true. }
  remember (run_pipeline E job_id product_name mau arpu (World db n))
    as r eqn:Hr.
  run_whd Hr. rewrite Hchk in Hr. run_whd Hr. subst r. cbn [res final trace store].
  done.
Qed.

Lemma run_on_cancelled_job_returns_witness :
  let r := run_pipeline demo_env "j1" "acme" (Some 1000) None
             (World cancelled_db 0) in
  trace r = [EvCheck "j1" true]
  ∧ res r = Returned
  ∧ row_sat (fun j => Job.status j = JobStatus.CANCELLED)
      "j1" (store (final r)).
Proof.
  apply (run_on_cancelled_job_returns demo_env "j1" "acme" (Some 1000) None
           (World cancelled_db 0)).
  eexists. split; [vm_compute; reflexivity|reflexivity].
Defined.

(** X11: a cancel request that is served just before one of the worker's
    blind accesses is overwritten by that access and never seen by a
    checkpoint. If the job is cancelled at such moments only (for
    instance while the render call is in flight), no stage call raises and
    the scrape is not empty, the run goes to its end and the job is DONE. *)
Theorem cancel_at_blind_access_is_lost E job_id product_name mau arpu w job :
  store w !! job_id = Some job →
  Job.status job ≠ JobStatus.CANCELLED →
  (∀ k, job_id ∈ (cancel_requests E k).*1 →
        ∃ d, d ∈ blind_accesses ∧ k = (tick w + d)%nat) →
  let r := run_pipeline E job_id product_name mau arpu w in
  (∀ ev, ev ∈ trace r → stage_raised ev = None) →
  (∀ p raw, EvScrape p (Responded raw) ∈ trace r →
            ReviewsBody.get_reviews raw ≠ []) →
  res r = Normal tt
  ∧ (∀ c, EvCheck job_id c ∈ trace r → c = false)
  ∧ row_sat (fun j => Job.status j = JobStatus.DONE) job_id (store (final r)).
Proof.
  destruct w as [db n]. cbn [store tick]. intros Hrow Hnc Hblind.
  assert (Hsat : row_sat (fun j => Job.status j ≠ JobStatus.CANCELLED)
                   job_id db) by (by exists job).
  assert (Hany : row_sat (fun _ => True) job_id db) by (by exists job).
  clear Hrow Hnc. cbv zeta.
  remember (run_pipeline E job_id product_name mau arpu (World db n))
    as r eqn:Hr.
  run_paths Hr; cbn [res final trace store]; intros Hok Hraw.
  (* no checkpoint reads CANCELLED *)
  all: try match goal with
       | Hchk : select_cancelled _ _ = true |- _ =>
           rewrite select_cancelled_false in Hchk; [discriminate Hchk|];
           repeat first
             [ eassumption
             | apply (row_sat_update (fun _ => True));
               [ by intros ? _ | row_layers frame_side ]
             | apply row_sat_update_inv; [by intros ? ?|]
             | apply row_sat_access_quiet;
               [ let Hin := fresh in
                 let Hd := fresh in
                 let Heq := fresh in
                 intros Hin; apply Hblind in Hin as (? & Hd & Heq);
                 unfold blind_accesses in Hd;
                 repeat (apply elem_of_cons in Hd as [->|Hd]; [lia|]);
                 by apply elem_of_nil in Hd
               | ] ]
       end.
  (* no stage call raises *)
  all: try (exfalso;
    match goal with
    | Hreply : _ = Raised ?e, Hok : ∀ ev, ev ∈ ?t → _ |- _ =>
        match t with
        | context [EvScrape ?p (Raised e)] =>
            specialize (Hok (EvScrape p (Raised e)))
        | context [EvClassify ?p (Raised e)] =>
            specialize (Hok (EvClassify p (Raised e)))
        | context [EvAnalyze ?p (Raised e)] =>
            specialize (Hok (EvAnalyze p (Raised e)))
        | context [EvReport ?p (Raised e)] =>
            specialize (Hok (EvReport p (Raised e)))
        end;
        discriminate Hok; elem_here
    end).
  (* the scrape is not empty *)
  all: try (exfalso; eapply Hraw; [elem_here|eassumption]).
  split; [reflexivity|]. split.
  - intros c Hin. elem_cases Hin; by injection Hin as ->.
  - apply (row_sat_update (fun _ => True)); [by intros ? _|].
    row_layers frame_side.
Qed.

Lemma cancel_at_blind_access_is_lost_witness :
  let r := demo_run cancel_during_render_env in
  res r = Normal tt
  ∧ (∀ c, EvCheck "j1" c ∈ trace r → c = false)
  ∧ row_sat (fun j => Job.status j = JobStatus.DONE) "j1" (store (final r)).
Proof.
  apply (cancel_at_blind_access_is_lost cancel_during_render_env "j1" "acme"
           (Some 1000) None (World demo_db 0) demo_job).
  - reflexivity.
  - discriminate.
  - intros k Hin. exists 13%nat. split; [unfold blind_accesses; elem_here|].
    change (cancel_requests cancel_during_render_env k)
      with (cancel_before 13 k) in Hin.
    unfold cancel_before in Hin.
    destruct (Nat.eqb_spec k 13) as [Hk|_]; [by rewrite Hk|].
    by apply elem_of_nil in Hin.
  - compute_trace. each_event.
  - intros p raw Hin. compute_trace_in Hin. elem_cases Hin.
    injection Hin as _ ->. discriminate.
Defined.

(** X12: the progress a run writes stays within 0..100 and never goes
    back, except for the reset to 0 that a failing run writes last. *)
Theorem progress_only_resets_on_failure E job_id product_name mau arpu w :
  let r := run_pipeline E job_id product_name mau arpu w in
  let ps := progress_written job_id (trace r) in
  Forall (fun p : Z => (0 ≤ p ≤ 100)%Z) ps
  ∧ match res r with
    | Raise _ => Sorted Z.le (removelast ps) ∧ last ps = Some 0
    | _ => Sorted Z.le ps
    end.
Proof.
  destruct w as [db n]. cbv zeta.
  remember (run_pipeline E job_id product_name mau arpu (World db n))
    as r eqn:Hr.
  run_paths Hr; cbn [res trace]; unfold progress_written;
    cbn [flat_map kwarg_progress app]; rewrite ?String.eqb_refl;
    cbn [app removelast].
  all: split; [repeat constructor; lia|].
  all: try (split; [|reflexivity]).
  all: repeat first [ apply Sorted_nil | apply Sorted_cons | apply HdRel_nil
                    | apply HdRel_cons ]; lia.
Qed.

(** ** The scraper's URL deduplication *)

(** The loop, from any state: it only appends, and [seen_urls] grows by
    the URLs it appends. *)
Lemma unique_loop_spec all seen unique :
  ∃ added,
    foldl unique_step (seen, unique) all
    = (list_to_set (ReviewItem.url <$> added) ∪ seen, (unique ++ added)%list)
    ∧ added `sublist_of` all
    ∧ NoDup (ReviewItem.url <$> added)
    ∧ (∀ r, r ∈ added → ReviewItem.url r ∉ seen)
    ∧ (∀ r, r ∈ all →
         ReviewItem.url r ∈ seen
         ∨ ReviewItem.url r ∈ ReviewItem.url <$> added)
    ∧ (∀ pre r post,
         added = (pre ++ r :: post)%list →
         ∃ pre' post',
           all = (pre' ++ r :: post')%list
           ∧ ReviewItem.url r ∉ ReviewItem.url <$> pre').
Proof.
  revert seen unique. induction all as [|x all IH]; intros seen unique.
  - exists []. cbn. rewrite app_nil_r, (left_id_L ∅ (∪)).
    split; [done|]. split; [done|]. split; [constructor|].
    split; [intros r Hr; by apply elem_of_nil in Hr|].
    split; [intros r Hr; by apply elem_of_nil in Hr|].
    intros pre r post Heq. by destruct pre.
  - cbn [foldl]. unfold unique_step at 2.
    destruct (decide (ReviewItem.url x ∈ seen)) as [Hin|Hnin].
    + destruct (IH seen unique) as (added & Heq & Hsub & Hnd & Hfresh & Hcov & Hfirst).
      exists added. split; [exact Heq|]. split; [by apply sublist_cons|].
      split; [exact Hnd|]. split; [exact Hfresh|]. split.
      * intros r Hr. apply elem_of_cons in Hr as [->|Hr]; [by left|by apply Hcov].
      * intros pre r post Hadd.
        destruct (Hfirst pre r post Hadd) as (pre' & post' & -> & Hnot).
        exists (x :: pre'), post'. split; [done|].
        rewrite fmap_cons, not_elem_of_cons. split; [|exact Hnot].
        intros Heqx. apply (Hfresh r).
        { rewrite Hadd. apply elem_of_app. right. apply list_elem_of_here. }
        by rewrite Heqx.
    + destruct (IH ({[ReviewItem.url x]} ∪ seen) (unique ++ [x])%list)
        as (added & Heq & Hsub & Hnd & Hfresh & Hcov & Hfirst).
      exists (x :: added). rewrite Heq. split.
      { f_equal; [|by rewrite <- app_assoc].
        rewrite fmap_cons, list_to_set_cons.
        rewrite (assoc_L (∪)), (comm_L (∪) _ {[ReviewItem.url x]}).
        by rewrite <- (assoc_L (∪)). }
      split; [by apply sublist_skip|]. split.
      { rewrite fmap_cons. apply NoDup_cons. split; [|exact Hnd].
        intros Hx. apply list_elem_of_fmap in Hx as (r & Hurl & Hr).
        apply (Hfresh r Hr). rewrite <- Hurl.
        apply elem_of_union. left. by apply elem_of_singleton. }
      split.
      { intros r Hr. apply elem_of_cons in Hr as [->|Hr]; [exact Hnin|].
        specialize (Hfresh r Hr). intros Hs. apply Hfresh.
        apply elem_of_union. by right. }
      split.
      { intros r Hr. rewrite fmap_cons.
        apply elem_of_cons in Hr as [->|Hr].
        - right. apply list_elem_of_here.
        - destruct (Hcov r Hr) as [Hs|Ha].
          + apply elem_of_union in Hs as [Hs|Hs].
            * apply elem_of_singleton in Hs. right. rewrite Hs.
              apply list_elem_of_here.
            * by left.
          + right. by apply list_elem_of_further. }
      intros pre r post Hadd. destruct pre as [|y pre].
      * cbn in Hadd. injection Hadd as -> ->.
        exists [], all. split; [done|]. cbn. apply not_elem_of_nil.
      * cbn in Hadd. injection Hadd as -> Hadd.
        destruct (Hfirst pre r post Hadd) as (pre' & post' & -> & Hnot).
        exists (y :: pre'), post'. split; [done|].
        rewrite fmap_cons, not_elem_of_cons. split; [|exact Hnot].
        intros Heqy. apply (Hfresh r).
        { rewrite Hadd. apply elem_of_app. right. apply list_elem_of_here. }
        rewrite Heqy. apply elem_of_union. left. by apply elem_of_singleton.
Qed.

Lemma unique_by_url_spec all :
  unique_by_url all `sublist_of` all
  ∧ NoDup (ReviewItem.url <$> unique_by_url all)
  ∧ (∀ r, r ∈ all →
       ReviewItem.url r ∈ ReviewItem.url <$> unique_by_url all)
  ∧ (∀ pre r post,
       unique_by_url all = (pre ++ r :: post)%list →
       ∃ pre' post',
         all = (pre' ++ r :: post')%list
         ∧ ReviewItem.url r ∉ ReviewItem.url <$> pre').
Proof.
  unfold unique_by_url.
  destruct (unique_loop_spec all ∅ [])
    as (added & -> & Hsub & Hnd & _ & Hcov & Hfirst).
  cbn [snd app]. split; [exact Hsub|]. split; [exact Hnd|].
  split; [|exact Hfirst].
  intros r Hr. destruct (Hcov r Hr) as [Hs|Ha]; [|exact Ha].
  by apply not_elem_of_empty in Hs.
Qed.

(** Two first occurrences of one URL in a list are the same item. *)
Lemma first_occurrence_unique (pre pre' post post' : list ReviewItem.t) r r' :
  (pre ++ r :: post)%list = (pre' ++ r' :: post')%list →
  ReviewItem.url r = ReviewItem.url r' →
  ReviewItem.url r ∉ ReviewItem.url <$> pre' →
  ReviewItem.url r' ∉ ReviewItem.url <$> pre →
  r = r'.
Proof.
  revert pre'. induction pre as [|x pre IH]; intros pre' Heq Hurl Hn' Hn.
  - destruct pre' as [|y pre']; cbn in Heq.
    + by injection Heq.
    + injection Heq as <- _. exfalso. apply Hn'. rewrite fmap_cons.
      apply list_elem_of_here.
  - destruct pre' as [|y pre']; cbn in Heq.
    + injection Heq as -> _. exfalso. apply Hn. rewrite fmap_cons.
      apply list_elem_of_here.
    + injection Heq as -> Heq. apply (IH pre' Heq Hurl).
      * intros Hin. apply Hn'. rewrite fmap_cons. by apply list_elem_of_further.
      * intros Hin. apply Hn. rewrite fmap_cons. by apply list_elem_of_further.
Qed.

(** The loop leaves a list alone whose URLs are new and pairwise
    distinct. *)
Lemma unique_loop_distinct all seen unique :
  NoDup (ReviewItem.url <$> all) →
  (∀ r, r ∈ all → ReviewItem.url r ∉ seen) →
  (foldl unique_step (seen, unique) all).2 = (unique ++ all)%list.
Proof.
  revert seen unique. induction all as [|x all IH]; intros seen unique Hnd Hnew.
  - cbn. by rewrite app_nil_r.
  - cbn [foldl]. unfold unique_step at 2.
    rewrite fmap_cons in Hnd. apply NoDup_cons in Hnd as [Hx Hnd].
    rewrite decide_False by (apply Hnew, list_elem_of_here).
    rewrite IH; [by rewrite <- app_assoc|exact Hnd|].
    intros r Hr Hin. apply elem_of_union in Hin as [Hin|Hin].
    + apply elem_of_singleton in Hin. apply Hx. rewrite <- Hin.
      by apply list_elem_of_fmap_2.
    + by apply (Hnew r (list_elem_of_further _ _ _ Hr)).
Qed.

(** X13: the URL deduplication of [scrape] returns a sub-sequence of its
    input (same items, same order) in which no URL occurs twice, and it
    loses no URL: every URL of the input is still there. *)
Theorem unique_by_url_no_duplicates (all_reviews : list ReviewItem.t) :
  unique_by_url all_reviews `sublist_of` all_reviews
  ∧ NoDup (ReviewItem.url <$> unique_by_url all_reviews)
  ∧ ∀ u, u ∈ ReviewItem.url <$> all_reviews
         ↔ u ∈ ReviewItem.url <$> unique_by_url all_reviews.
Proof.
  destruct (unique_by_url_spec all_reviews) as (Hsub & Hnd & Hcov & _).
  split; [exact Hsub|]. split; [exact Hnd|]. intros u. split.
  - intros Hin. apply list_elem_of_fmap in Hin as (r & -> & Hr). by apply Hcov.
  - intros Hin. apply list_elem_of_fmap in Hin as (r & -> & Hr).
    apply list_elem_of_fmap_2. by eapply elem_of_sublist.
Qed.

(** X14: the URL deduplication keeps, for each URL, the item that comes
    first: an item is in the result exactly when it stands in the input
    at a place before which its URL does not occur. *)
Theorem unique_by_url_keeps_first (all_reviews : list ReviewItem.t) r :
  r ∈ unique_by_url all_reviews
  ↔ ∃ pre post,
      all_reviews = (pre ++ r :: post)%list
      ∧ ReviewItem.url r ∉ ReviewItem.url <$> pre.
Proof.
  destruct (unique_by_url_spec all_reviews) as (_ & _ & Hcov & Hfirst).
  split.
  - intros Hin. apply list_elem_of_split in Hin as (pre & post & Heq).
    exact (Hfirst pre r post Heq).
  - intros (pre & post & Heq & Hnot).
    assert (Hr : r ∈ all_reviews).
    { rewrite Heq. apply elem_of_app. right. apply list_elem_of_here. }
    apply Hcov, list_elem_of_fmap in Hr as (r' & Hurl & Hr').
    pose proof Hr' as Hin'.
    apply list_elem_of_split in Hr' as (pre1 & post1 & Heq1).
    destruct (Hfirst pre1 r' post1 Heq1) as (pre' & post' & Heq' & Hnot').
    rewrite Heq in Heq'.
    rewrite (first_occurrence_unique pre pre' post post' r r' Heq' Hurl).
    + exact Hin'.
    + by rewrite Hurl.
    + by rewrite <- Hurl.
Qed.

(** X15: deduplicating twice changes nothing more, and a list whose URLs
    are already pairwise distinct comes back as it is. *)
Theorem unique_by_url_idempotent (all_reviews : list ReviewItem.t) :
  unique_by_url (unique_by_url all_reviews) = unique_by_url all_reviews
  ∧ (NoDup (ReviewItem.url <$> all_reviews) →
     unique_by_url all_reviews = all_reviews).
Proof.
  assert (Hfix : ∀ l, NoDup (ReviewItem.url <$> l) → unique_by_url l = l).
  { intros l Hnd. unfold unique_by_url.
    rewrite unique_loop_distinct; [done|exact Hnd|].
    intros r _. apply not_elem_of_empty. }
  split; [|apply Hfix].
  apply Hfix. by destruct (unique_by_url_spec all_reviews) as (_ & Hnd & _).
Qed.

(** X16: [scrape] answers with [total_count] equal to the number of
    reviews, each dated "recent" and with [platform] equal to [source];
    and when every scraper raised or found nothing, it answers with no
    review and [total_count] 0 instead of failing. *)
Theorem scrape_response_shape cluster_by_meaning req reddit hn web exa :
  let resp := scrape cluster_by_meaning req reddit hn web exa in
  ScrapeResponse.job_id resp = ScrapePayload.job_id req
  ∧ ScrapeResponse.total_count resp
    = Z.of_nat (length (ScrapeResponse.reviews resp))
  ∧ Forall (fun r => ReviewItem.date r = "recent"
                     ∧ ReviewItem.platform r = ReviewItem.source r)
      (ScrapeResponse.reviews resp)
  ∧ (list_or_empty reddit = [] → list_or_empty hn = [] →
     list_or_empty web = [] → list_or_empty exa = [] →
     resp = ScrapeResponse.mk (ScrapePayload.job_id req) [] 0).
Proof.
  cbv zeta. unfold scrape. cbn [ScrapeResponse.job_id
    ScrapeResponse.total_count ScrapeResponse.reviews].
  split; [reflexivity|]. split; [reflexivity|]. split.
  - apply Forall_fmap, Forall_forall. by intros c _.
  - intros -> -> -> ->. reflexivity.
Qed.

(** ** The analysis endpoint *)

(** X17: whenever [/analyze] returns, its result has exactly the keys
    sentiment, priority_matrix, technical_gaps, competitor and risk, in
    that order; an agent that raised shows as an empty object, and a
    priority reply without a key shows as an empty list under it. *)
Theorem analyze_result_keys sentiment priority competitor risk result :
  AnalysisService.analyze sentiment priority competitor risk = Responded result →
  result.*1 = ["sentiment"; "priority_matrix"; "technical_gaps";
               "competitor"; "risk"]
  ∧ ∃ d,
      or_empty_dict priority = JDict d
      ∧ result
        = [("sentiment", or_empty_dict sentiment);
           ("priority_matrix", default (JList []) (dict_get "priority_matrix" d));
           ("technical_gaps", default (JList []) (dict_get "technical_gaps" d));
           ("competitor", or_empty_dict competitor);
           ("risk", or_empty_dict risk)].
Proof.
  unfold AnalysisService.analyze, py_get.
  destruct (or_empty_dict priority) as [| | | | | |d]; try discriminate.
  intros [= <-]. split; [reflexivity|]. by exists d.
Qed.

Lemma analyze_result_keys_witness :
  ∃ result,
    AnalysisService.analyze (Raised (Exception "TimeoutError" ""))
      (Responded (JDict [("priority_matrix", JList [JStr "login fails"])]))
      (Raised (Exception "TimeoutError" "")) (Responded (JDict []))
    = Responded result
    ∧ result.*1 = ["sentiment"; "priority_matrix"; "technical_gaps";
                   "competitor"; "risk"].
Proof.
  eexists. split; [reflexivity|].
  exact (proj1 (analyze_result_keys (Raised (Exception "TimeoutError" ""))
                  (Responded
                     (JDict [("priority_matrix", JList [JStr "login fails"])]))
                  (Raised (Exception "TimeoutError" ""))
                  (Responded (JDict [])) _ eq_refl)).
Defined.

(** X18: no exception of an agent fails [/analyze]. It raises in one case
    only: the priority agent returned a JSON value that is not an object,
    and then it raises [AttributeError]. *)
Theorem analyze_fails_only_on_priority_shape
    sentiment priority competitor risk :
  (∃ e, AnalysisService.analyze sentiment priority competitor risk = Raised e)
  ↔ ∃ v, priority = Responded v ∧ ∀ d, v ≠ JDict d.
Proof.
  unfold AnalysisService.analyze, py_get. split.
  - intros [e He]. destruct priority as [v|e0]; [|discriminate He].
    exists v. split; [done|]. intros d ->. discriminate He.
  - intros (v & -> & Hv). cbn [or_empty_dict].
    destruct v; try (by eexists). by destruct (Hv fields).
Qed.

(** ** The sentiment aggregate *)

Lemma zip_fst_take {A B} (l : list A) (k : list B) :
  (zip l k).*1 = take (length k) l.
Proof.
  revert k. induction l as [|x l IH]; intros [|y k]; cbn; try done.
  by rewrite IH.
Qed.

Lemma known_label_cases label :
  known_label label →
  label = "positive" ∨ label = "neutral" ∨ label = "negative".
Proof.
  unfold known_label. rewrite !elem_of_cons, elem_of_nil. tauto.
Qed.

(** The loop over items whose labels all have a key: it ends, and the
    counts grow by the numbers of the three labels. *)
Lemma tally_loop_known t items :
  Forall (fun item => known_label item.1.1) items →
  ∃ t',
    tally_loop t items = inl t'
    ∧ n_positive t'
      = (n_positive t + length (filter (fun s => s.1 = "positive") items.*1))%nat
    ∧ n_neutral t'
      = (n_neutral t + length (filter (fun s => s.1 = "neutral") items.*1))%nat
    ∧ n_negative t'
      = (n_negative t + length (filter (fun s => s.1 = "negative") items.*1))%nat.
Proof.
  revert t. induction items as [|[[label conf] weight] items IH]; intros t Hk.
  - exists t. cbn. rewrite !Nat.add_0_r. done.
  - apply Forall_cons in Hk as [Hl Hk]. cbn in Hl.
    cbn [tally_loop]. unfold tally_step.
    rewrite fmap_cons, !filter_cons. cbn [fst].
    destruct (known_label_cases label Hl) as [-> | [-> | ->]].
    all: repeat first [ rewrite decide_True by reflexivity
                      | rewrite decide_False by discriminate ].
    all: match goal with
         | |- context [tally_loop ?t1 _] =>
             destruct (IH t1 Hk) as (t' & -> & Hp & Hu & Hg)
         end.
    all: exists t'; split; [done|]; cbn in Hp, Hu, Hg; cbn [length]; lia.
Qed.

(** The loop stops at the first item whose label has no key. *)
Lemma tally_loop_unknown t pre label conf weight post :
  Forall (fun item => known_label item.1.1) pre →
  ¬ known_label label →
  tally_loop t (pre ++ ((label, conf), weight) :: post) = inr label.
Proof.
  revert t. induction pre as [|item pre IH]; intros t Hk Hnot.
  - cbn. unfold known_label in Hnot.
    rewrite !not_elem_of_cons in Hnot. destruct Hnot as (H1 & H2 & H3 & _).
    by rewrite !decide_False.
  - apply Forall_cons in Hk as [Hl Hk]. cbn [app tally_loop].
    destruct (tally_loop_known t [item]) as (t1 & Ht1 & _).
    { by constructor. }
    cbn in Ht1. destruct (tally_step t item) as [t2|bad]; [|discriminate Ht1].
    by apply IH.
Qed.

(** X19: a label other than positive, neutral and negative makes
    [aggregate_sentiment] raise [KeyError] with that label: the first such
    label among the scores that have a weight stops the loop. *)
Theorem aggregate_rejects_unknown_label
    round_ndigits int_truediv scores_list weights pre label conf post :
  scores_list = (pre ++ (label, conf) :: post)%list →
  Forall (fun s => known_label s.1) pre →
  ¬ known_label label →
  (length pre < length weights)%nat →
  aggregate_sentiment round_ndigits int_truediv scores_list weights
  = KeyError label.
Proof.
  intros -> Hpre Hnot Hlen. unfold aggregate_sentiment.
  assert (Hloop : tally_loop (Tally 0 0 0 0 0)
                    (zip (pre ++ (label, conf) :: post) weights)
                  = inr label).
  { rewrite <- (take_drop (length pre) weights).
    destruct (drop (length pre) weights) as [|w wpost] eqn:Hdrop.
    { apply (f_equal length) in Hdrop. rewrite length_drop in Hdrop.
      cbn in Hdrop. lia. }
    assert (Hsame : length pre = length (take (length pre) weights))
      by (rewrite length_take; lia).
    rewrite (zip_with_app pair _ _ _ _ Hsame).
    cbn [zip_with]. apply tally_loop_unknown; [|exact Hnot].
    apply Forall_forall. intros [[l c] w0] Hin.
    apply elem_of_zip_l in Hin. cbn.
    by apply (proj1 (Forall_forall _ _) Hpre (l, c)). }
  rewrite Hloop. by destruct pre.
Qed.

Lemma aggregate_rejects_unknown_label_witness :
  aggregate_sentiment (fun x _ => x) (fun _ _ => 0%float)
    [("positive", 1%float); ("mixed", 1%float)] [1%float; 1%float]
  = KeyError "mixed".
Proof.
  apply (aggregate_rejects_unknown_label _ _ _ _ [("positive", 1%float)]
           "mixed" 1%float []).
  - reflexivity.
  - repeat constructor.
  - unfold known_label. intros Hin. refute_elem_of Hin.
  - cbn. lia.
Defined.

(** X20: when every score that has a weight carries one of the three
    labels, [aggregate_sentiment] returns; [total] is the number of
    scores, also when there are fewer weights; and [overall_label] is the
    most frequent label among the scores that have a weight, a tie going
    to positive before neutral before negative. *)
Theorem aggregate_majority_label
    round_ndigits int_truediv scores_list weights :
  scores_list ≠ [] →
  Forall (fun s => known_label s.1) (take (length weights) scores_list) →
  let pos := count_label "positive" (length weights) scores_list in
  let neu := count_label "neutral" (length weights) scores_list in
  let neg := count_label "negative" (length weights) scores_list in
  ∃ s,
    aggregate_sentiment round_ndigits int_truediv scores_list weights
    = Summary s
    ∧ SentimentSummary.total s = Z.of_nat (length scores_list)
    ∧ SentimentSummary.overall_label s
      = if decide (neu ≤ pos ∧ neg ≤ pos)%nat then "positive"
        else if decide (neg ≤ neu)%nat then "neutral"
        else "negative".
Proof.
  intros Hne Hknown. cbv zeta. unfold aggregate_sentiment, count_label.
  destruct (tally_loop_known (Tally 0 0 0 0 0) (zip scores_list weights))
    as (t & Hloop & Hp & Hu & Hg).
  { apply Forall_forall. intros [[l c] w] Hin.
    apply (list_elem_of_fmap_2 fst) in Hin. rewrite zip_fst_take in Hin.
    by apply (proj1 (Forall_forall _ _) Hknown (l, c)). }
  rewrite zip_fst_take in Hp, Hu, Hg. cbn in Hp, Hu, Hg.
  destruct scores_list as [|s0 rest]; [done|].
  rewrite Hloop. eexists. split; [reflexivity|]. split; [reflexivity|].
  cbn [SentimentSummary.overall_label]. unfold max_count_label.
  rewrite Hp, Hu, Hg. cbn [snd fst].
  repeat case_decide; cbn [fst snd] in *; try reflexivity; lia.
Qed.

Lemma aggregate_majority_label_witness :
  ∃ s,
    aggregate_sentiment (fun x _ => x) (fun _ _ => 0%float)
      [("negative", 1%float); ("positive", 1%float)] [1%float; 1%float]
    = Summary s
    ∧ SentimentSummary.total s = 2
    ∧ SentimentSummary.overall_label s = "positive".
Proof.
  apply (aggregate_majority_label (fun x _ => x) (fun _ _ => 0%float)
           [("negative", 1%float); ("positive", 1%float)]
           [1%float; 1%float]).
  - discriminate.
  - repeat constructor; unfold known_label; cbn; elem_here.
Defined.
